(** * GC9A01 round LCD controller: the simulation model of [chips/gc9a01.c]

    A shallow embedding of the chip model: the byte-stream parser
    ([gc9a01_spi_done]), the command interpreter ([process_command]), the
    pixel pipeline ([process_pixel]) and the control-line monitor
    ([gc9a01_pin_change]), followed by the properties of the
    natural-language specification that were checked against them.

    Conventions.
    - C integers are [Z] with the wrap-around of their type written out:
      [u8], [u16], [u32] for the unsigned types, [int32] for [int].
      Signed overflow has no meaning in C; [int32] gives the
      two's-complement result, and the theorems that depend on the circle
      test say where the arithmetic stays inside [int].
    - The framebuffer is a finite map from byte offset to the 32-bit word
      written there.  Every offset the chip writes is a multiple of four
      and every write is one whole word, so words never overlap.
    - [spi_start], [spi_stop] and [pin_read] act on the simulator's SPI
      transport only.  They read and write no field of [gc9a01_state_t]
      and no framebuffer cell, so the embedding keeps the place where they
      are called as a comment and nothing else. *)

From Stdlib Require Import ZArith Bool List Lia.
From stdpp Require Import base tactics option list gmap fin_maps.

Local Open Scope Z_scope.

(** ** Machine integers *)

Definition u8 (z : Z) : Z := z mod 2 ^ 8.
Definition u16 (z : Z) : Z := z mod 2 ^ 16.
Definition u32 (z : Z) : Z := z mod 2 ^ 32.

Definition INT_MAX : Z := 2 ^ 31 - 1.
Definition INT_MIN : Z := - 2 ^ 31.

(** The value of an [int] expression whose mathematical result is [z]. *)
Definition int32 (z : Z) : Z := (z + 2 ^ 31) mod 2 ^ 32 - 2 ^ 31.

(** ** Command codes *)

Definition GC9A01_SWRESET : Z := 0x01.
Definition GC9A01_SLPOUT  : Z := 0x11.
Definition GC9A01_DISPON  : Z := 0x29.
Definition GC9A01_DISPOFF : Z := 0x28.
Definition GC9A01_CASET   : Z := 0x2A.
Definition GC9A01_RASET   : Z := 0x2B.
Definition GC9A01_RAMWR   : Z := 0x2C.
Definition GC9A01_MADCTL  : Z := 0x36.
Definition GC9A01_COLMOD  : Z := 0x3A.
Definition GC9A01_INVOFF  : Z := 0x20.
Definition GC9A01_INVON   : Z := 0x21.

(** Modelled from the spec: the two levels of a control line ("level ∈
    {low, high}").  The constants [LOW] and [HIGH] come from the
    simulator's header, which is not part of the repository; the chip only
    ever compares a level with [LOW]. *)
Definition LOW : Z := 0.
Definition HIGH : Z := 1.

(** ** State *)

Inductive gc9a01_mode_t : Type :=
  | GC9A01_MODE_COMMAND
  | GC9A01_MODE_DATA.

(** [gc9a01_state_t], without the transport handle [spi] and the receive
    buffer [spi_buffer] (the bytes of a delivery are the argument of
    [gc9a01_spi_done]). *)
Record gc9a01_state_t : Type := {
  cs_pin : Z;
  dc_pin : Z;
  rst_pin : Z;
  framebuffer : gmap Z Z;
  width : Z;
  height : Z;
  mode : gc9a01_mode_t;
  is_receiving_command : bool;
  current_command : Z;
  expected_args : Z;
  received_args : Z;
  command_args : list Z;
  pending_data : Z;
  pending_data_valid : bool;
  col_start : Z;
  col_end : Z;
  row_start : Z;
  row_end : Z;
  current_col : Z;
  current_row : Z;
  ram_write : bool;
  display_on : bool;
  inverted : bool
}.

(** Field assignment, [state->f = v]. *)

Definition set_framebuffer (v : gmap Z Z) (s : gc9a01_state_t) : gc9a01_state_t :=
  Build_gc9a01_state_t (cs_pin s) (dc_pin s) (rst_pin s) v (width s) (height s) (mode s)
    (is_receiving_command s) (current_command s) (expected_args s) (received_args s)
    (command_args s) (pending_data s) (pending_data_valid s) (col_start s) (col_end s)
    (row_start s) (row_end s) (current_col s) (current_row s) (ram_write s) (display_on
    s) (inverted s).

Definition set_mode (v : gc9a01_mode_t) (s : gc9a01_state_t) : gc9a01_state_t :=
  Build_gc9a01_state_t (cs_pin s) (dc_pin s) (rst_pin s) (framebuffer s) (width s)
    (height s) v (is_receiving_command s) (current_command s) (expected_args s)
    (received_args s) (command_args s) (pending_data s) (pending_data_valid s)
    (col_start s) (col_end s) (row_start s) (row_end s) (current_col s) (current_row s)
    (ram_write s) (display_on s) (inverted s).

Definition set_is_receiving_command (v : bool) (s : gc9a01_state_t) : gc9a01_state_t :=
  Build_gc9a01_state_t (cs_pin s) (dc_pin s) (rst_pin s) (framebuffer s) (width s)
    (height s) (mode s) v (current_command s) (expected_args s) (received_args s)
    (command_args s) (pending_data s) (pending_data_valid s) (col_start s) (col_end s)
    (row_start s) (row_end s) (current_col s) (current_row s) (ram_write s) (display_on
    s) (inverted s).

Definition set_current_command (v : Z) (s : gc9a01_state_t) : gc9a01_state_t :=
  Build_gc9a01_state_t (cs_pin s) (dc_pin s) (rst_pin s) (framebuffer s) (width s)
    (height s) (mode s) (is_receiving_command s) v (expected_args s) (received_args s)
    (command_args s) (pending_data s) (pending_data_valid s) (col_start s) (col_end s)
    (row_start s) (row_end s) (current_col s) (current_row s) (ram_write s) (display_on
    s) (inverted s).

Definition set_expected_args (v : Z) (s : gc9a01_state_t) : gc9a01_state_t :=
  Build_gc9a01_state_t (cs_pin s) (dc_pin s) (rst_pin s) (framebuffer s) (width s)
    (height s) (mode s) (is_receiving_command s) (current_command s) v (received_args s)
    (command_args s) (pending_data s) (pending_data_valid s) (col_start s) (col_end s)
    (row_start s) (row_end s) (current_col s) (current_row s) (ram_write s) (display_on
    s) (inverted s).

Definition set_received_args (v : Z) (s : gc9a01_state_t) : gc9a01_state_t :=
  Build_gc9a01_state_t (cs_pin s) (dc_pin s) (rst_pin s) (framebuffer s) (width s)
    (height s) (mode s) (is_receiving_command s) (current_command s) (expected_args s) v
    (command_args s) (pending_data s) (pending_data_valid s) (col_start s) (col_end s)
    (row_start s) (row_end s) (current_col s) (current_row s) (ram_write s) (display_on
    s) (inverted s).

Definition set_command_args (v : list Z) (s : gc9a01_state_t) : gc9a01_state_t :=
  Build_gc9a01_state_t (cs_pin s) (dc_pin s) (rst_pin s) (framebuffer s) (width s)
    (height s) (mode s) (is_receiving_command s) (current_command s) (expected_args s)
    (received_args s) v (pending_data s) (pending_data_valid s) (col_start s) (col_end
    s) (row_start s) (row_end s) (current_col s) (current_row s) (ram_write s)
    (display_on s) (inverted s).

Definition set_pending_data (v : Z) (s : gc9a01_state_t) : gc9a01_state_t :=
  Build_gc9a01_state_t (cs_pin s) (dc_pin s) (rst_pin s) (framebuffer s) (width s)
    (height s) (mode s) (is_receiving_command s) (current_command s) (expected_args s)
    (received_args s) (command_args s) v (pending_data_valid s) (col_start s) (col_end
    s) (row_start s) (row_end s) (current_col s) (current_row s) (ram_write s)
    (display_on s) (inverted s).

Definition set_pending_data_valid (v : bool) (s : gc9a01_state_t) : gc9a01_state_t :=
  Build_gc9a01_state_t (cs_pin s) (dc_pin s) (rst_pin s) (framebuffer s) (width s)
    (height s) (mode s) (is_receiving_command s) (current_command s) (expected_args s)
    (received_args s) (command_args s) (pending_data s) v (col_start s) (col_end s)
    (row_start s) (row_end s) (current_col s) (current_row s) (ram_write s) (display_on
    s) (inverted s).

Definition set_col_start (v : Z) (s : gc9a01_state_t) : gc9a01_state_t :=
  Build_gc9a01_state_t (cs_pin s) (dc_pin s) (rst_pin s) (framebuffer s) (width s)
    (height s) (mode s) (is_receiving_command s) (current_command s) (expected_args s)
    (received_args s) (command_args s) (pending_data s) (pending_data_valid s) v
    (col_end s) (row_start s) (row_end s) (current_col s) (current_row s) (ram_write s)
    (display_on s) (inverted s).

Definition set_col_end (v : Z) (s : gc9a01_state_t) : gc9a01_state_t :=
  Build_gc9a01_state_t (cs_pin s) (dc_pin s) (rst_pin s) (framebuffer s) (width s)
    (height s) (mode s) (is_receiving_command s) (current_command s) (expected_args s)
    (received_args s) (command_args s) (pending_data s) (pending_data_valid s)
    (col_start s) v (row_start s) (row_end s) (current_col s) (current_row s) (ram_write
    s) (display_on s) (inverted s).

Definition set_row_start (v : Z) (s : gc9a01_state_t) : gc9a01_state_t :=
  Build_gc9a01_state_t (cs_pin s) (dc_pin s) (rst_pin s) (framebuffer s) (width s)
    (height s) (mode s) (is_receiving_command s) (current_command s) (expected_args s)
    (received_args s) (command_args s) (pending_data s) (pending_data_valid s)
    (col_start s) (col_end s) v (row_end s) (current_col s) (current_row s) (ram_write
    s) (display_on s) (inverted s).

Definition set_row_end (v : Z) (s : gc9a01_state_t) : gc9a01_state_t :=
  Build_gc9a01_state_t (cs_pin s) (dc_pin s) (rst_pin s) (framebuffer s) (width s)
    (height s) (mode s) (is_receiving_command s) (current_command s) (expected_args s)
    (received_args s) (command_args s) (pending_data s) (pending_data_valid s)
    (col_start s) (col_end s) (row_start s) v (current_col s) (current_row s) (ram_write
    s) (display_on s) (inverted s).

Definition set_current_col (v : Z) (s : gc9a01_state_t) : gc9a01_state_t :=
  Build_gc9a01_state_t (cs_pin s) (dc_pin s) (rst_pin s) (framebuffer s) (width s)
    (height s) (mode s) (is_receiving_command s) (current_command s) (expected_args s)
    (received_args s) (command_args s) (pending_data s) (pending_data_valid s)
    (col_start s) (col_end s) (row_start s) (row_end s) v (current_row s) (ram_write s)
    (display_on s) (inverted s).

Definition set_current_row (v : Z) (s : gc9a01_state_t) : gc9a01_state_t :=
  Build_gc9a01_state_t (cs_pin s) (dc_pin s) (rst_pin s) (framebuffer s) (width s)
    (height s) (mode s) (is_receiving_command s) (current_command s) (expected_args s)
    (received_args s) (command_args s) (pending_data s) (pending_data_valid s)
    (col_start s) (col_end s) (row_start s) (row_end s) (current_col s) v (ram_write s)
    (display_on s) (inverted s).

Definition set_ram_write (v : bool) (s : gc9a01_state_t) : gc9a01_state_t :=
  Build_gc9a01_state_t (cs_pin s) (dc_pin s) (rst_pin s) (framebuffer s) (width s)
    (height s) (mode s) (is_receiving_command s) (current_command s) (expected_args s)
    (received_args s) (command_args s) (pending_data s) (pending_data_valid s)
    (col_start s) (col_end s) (row_start s) (row_end s) (current_col s) (current_row s)
    v (display_on s) (inverted s).

Definition set_display_on (v : bool) (s : gc9a01_state_t) : gc9a01_state_t :=
  Build_gc9a01_state_t (cs_pin s) (dc_pin s) (rst_pin s) (framebuffer s) (width s)
    (height s) (mode s) (is_receiving_command s) (current_command s) (expected_args s)
    (received_args s) (command_args s) (pending_data s) (pending_data_valid s)
    (col_start s) (col_end s) (row_start s) (row_end s) (current_col s) (current_row s)
    (ram_write s) v (inverted s).

Definition set_inverted (v : bool) (s : gc9a01_state_t) : gc9a01_state_t :=
  Build_gc9a01_state_t (cs_pin s) (dc_pin s) (rst_pin s) (framebuffer s) (width s)
    (height s) (mode s) (is_receiving_command s) (current_command s) (expected_args s)
    (received_args s) (command_args s) (pending_data s) (pending_data_valid s)
    (col_start s) (col_end s) (row_start s) (row_end s) (current_col s) (current_row s)
    (ram_write s) (display_on s) v.


(** ** Framebuffer *)

Definition black : Z := 0xff000000.

(** Modelled from the spec: the surface collaborator ("the core never
    reads back the surface; it only writes").  [buffer_write] belongs to
    the simulator, not to the repository; it is called with a byte offset
    and one 32-bit colour, and the model records the word at that offset
    whatever the offset is, so that a write outside the surface is seen. *)
Definition buffer_write (fb : gmap Z Z) (offset color : Z) : gmap Z Z :=
  <[offset := color]> fb.

(** [(y * state->width + x) * 4] in [uint32_t] arithmetic. *)
Definition pixel_offset (w x y : Z) : Z := u32 (u32 (u32 (y * w) + x) * 4).

(** The nested loop that paints every pixel black (software reset, reset
    line and initialisation share it). *)
Definition fill_black (w h : Z) (fb : gmap Z Z) : gmap Z Z :=
  fold_left
    (fun fb y =>
       fold_left (fun fb x => buffer_write fb (pixel_offset w x y) black)
                 (seqZ 0 w) fb)
    (seqZ 0 h) fb.

(** ** Byte classifier *)

Definition get_expected_arg_count (command : Z) : Z :=
  if decide (command = GC9A01_SWRESET ∨ command = GC9A01_SLPOUT ∨
             command = GC9A01_DISPON ∨ command = GC9A01_DISPOFF ∨
             command = GC9A01_RAMWR ∨ command = GC9A01_INVOFF ∨
             command = GC9A01_INVON) then 0
  else if decide (command = GC9A01_CASET ∨ command = GC9A01_RASET) then 4
  else if decide (command = GC9A01_MADCTL) then 1
  else if decide (command = GC9A01_COLMOD) then 1
  else 0.

(** ** Colour conversion *)

Definition rgb565_to_rgba (value : Z) : Z :=
  Z.lor (Z.lor (Z.lor 0xff000000 (Z.shiftl (Z.land value 0x001F) 19))
               (Z.shiftl (Z.land value 0x07E0) 5))
        (Z.shiftr (Z.land value 0xF800) 8).

(** The body of [if (state->inverted)] in [process_pixel]. *)
Definition invert_color (color : Z) : Z :=
  let r := u8 (255 - Z.land (Z.shiftr color 16) 0xFF) in
  let g := u8 (255 - Z.land (Z.shiftr color 8) 0xFF) in
  let b := u8 (255 - Z.land color 0xFF) in
  Z.lor (Z.lor (Z.lor 0xff000000 (Z.shiftl r 16)) (Z.shiftl g 8)) b.

(** ** Command interpreter *)

(** [args[i]]; a read past the end of [args] gives 0. *)
Definition arg (args : list Z) (i : nat) : Z := nth i args 0.

(** The reset sequence, written out twice in the source: under
    [case GC9A01_SWRESET] and under the reset line in
    [gc9a01_pin_change]. *)
Definition reset_display (state : gc9a01_state_t) : gc9a01_state_t :=
  let state :=
    set_framebuffer (fill_black (width state) (height state) (framebuffer state)) state in
  let state := set_display_on false state in
  let state := set_inverted false state in
  let state := set_ram_write false state in
  let state := set_col_start 0 state in
  let state := set_col_end (u16 (u32 (width state - 1))) state in
  let state := set_row_start 0 state in
  let state := set_row_end (u16 (u32 (height state - 1))) state in
  let state := set_current_col 0 state in
  set_current_row 0 state.

Definition process_command (state : gc9a01_state_t) (command : Z)
    (args : list Z) (len : Z) : gc9a01_state_t :=
  if decide (command = GC9A01_SWRESET) then reset_display state
  else if decide (command = GC9A01_SLPOUT) then state
  else if decide (command = GC9A01_DISPON) then set_display_on true state
  else if decide (command = GC9A01_DISPOFF) then set_display_on false state
  else if decide (command = GC9A01_CASET) then
    if decide (len = 4) then
      let state := set_col_start (u16 (Z.lor (Z.shiftl (arg args 0) 8) (arg args 1))) state in
      let state := set_col_end (u16 (Z.lor (Z.shiftl (arg args 2) 8) (arg args 3))) state in
      set_current_col (col_start state) state
    else state
  else if decide (command = GC9A01_RASET) then
    if decide (len = 4) then
      let state := set_row_start (u16 (Z.lor (Z.shiftl (arg args 0) 8) (arg args 1))) state in
      let state := set_row_end (u16 (Z.lor (Z.shiftl (arg args 2) 8) (arg args 3))) state in
      set_current_row (row_start state) state
    else state
  else if decide (command = GC9A01_RAMWR) then
    let state := set_ram_write true state in
    set_pending_data_valid false state
  else if decide (command = GC9A01_MADCTL) then state
  else if decide (command = GC9A01_COLMOD) then state
  else if decide (command = GC9A01_INVOFF) then set_inverted false state
  else if decide (command = GC9A01_INVON) then set_inverted true state
  else state.

(** ** Pixel pipeline *)

(** The window test that makes [process_pixel] return early. *)
Definition outside_window (state : gc9a01_state_t) : bool :=
  (current_col state <? col_start state) || (col_end state <? current_col state) ||
  (current_row state <? row_start state) || (row_end state <? current_row state).

(** [(dx * dx + dy * dy) > (center * center)], in [int]. *)
Definition outside_circle (state : gc9a01_state_t) : bool :=
  let center := int32 (u32 (width state / 2)) in
  let dx := int32 (current_col state - center) in
  let dy := int32 (current_row state - center) in
  int32 (center * center) <? int32 (int32 (dx * dx) + int32 (dy * dy)).

(** The colour computed before the circle test. *)
Definition pixel_color (state : gc9a01_state_t) (pixel_val : Z) : Z :=
  let color := rgb565_to_rgba pixel_val in
  if inverted state then invert_color color else color.

(** The call of [buffer_write] made by [process_pixel], if any: its
    offset and its colour. *)
Definition pixel_write (state : gc9a01_state_t) (pixel_val : Z) : option (Z * Z) :=
  let color := pixel_color state pixel_val in
  if outside_window state then None
  else
    let color := if outside_circle state then black else color in
    Some (pixel_offset (width state) (current_col state) (current_row state), color).

(** The cursor movement that ends [process_pixel]. *)
Definition advance_cursor (state : gc9a01_state_t) : gc9a01_state_t :=
  let state := set_current_col (u16 (current_col state + 1)) state in
  if col_end state <? current_col state then
    let state := set_current_col (col_start state) state in
    let state := set_current_row (u16 (current_row state + 1)) state in
    if row_end state <? current_row state then
      set_current_row (row_start state) state
    else state
  else state.

Definition process_pixel (state : gc9a01_state_t) (pixel_val : Z) : gc9a01_state_t :=
  match pixel_write state pixel_val with
  | None => state
  | Some (offset, color) =>
      let state :=
        set_framebuffer (buffer_write (framebuffer state) offset color) state in
      advance_cursor state
  end.

(** ** Stream parser *)

(** The body of the [for] loop of [gc9a01_spi_done]: one byte [b]. *)
Definition spi_byte (state : gc9a01_state_t) (b : Z) : gc9a01_state_t :=
  match mode state with
  | GC9A01_MODE_COMMAND =>
      if negb (is_receiving_command state) then
        let state := set_current_command b state in
        let state := set_is_receiving_command true state in
        let state := set_received_args 0 state in
        let state := set_expected_args (get_expected_arg_count b) state in
        if decide (expected_args state = 0) then
          let state := process_command state (current_command state) [] 0 in
          set_is_receiving_command false state
        else state
      else
        let state :=
          set_command_args
            (<[Z.to_nat (received_args state) := b]> (command_args state)) state in
        let state := set_received_args (u8 (received_args state + 1)) state in
        if expected_args state <=? received_args state then
          let state :=
            process_command state (current_command state) (command_args state)
                            (expected_args state) in
          set_is_receiving_command false state
        else state
  | GC9A01_MODE_DATA =>
      if ram_write state then
        if pending_data_valid state then
          let pixel_val := u16 (Z.lor (Z.shiftl (pending_data state) 8) b) in
          let state := set_pending_data_valid false state in
          process_pixel state pixel_val
        else
          let state := set_pending_data b state in
          set_pending_data_valid true state
      else state
  end.

(** [buffer] holds the [count] bytes of the delivery.  The call of
    [spi_start] that ends the function (when the select line reads low) is
    a transport call. *)
Definition gc9a01_spi_done (state : gc9a01_state_t) (buffer : list Z) : gc9a01_state_t :=
  match buffer with
  | [] => state
  | _ => fold_left spi_byte buffer state
  end.

(** ** Control-line monitor *)

(** The three [if] blocks of [gc9a01_pin_change], in the order of the
    source.  They run one after the other and none excludes the next;
    [spi_stop] and [spi_start] are transport calls. *)

(** [if (pin == state->cs_pin)] *)
Definition pin_change_cs (state : gc9a01_state_t) (pin value : Z) : gc9a01_state_t :=
  if decide (pin = cs_pin state) then
    if decide (value = LOW) then
      let state := set_is_receiving_command false state in
      set_pending_data_valid false state
    else
      let state := set_ram_write false state in
      let state := set_is_receiving_command false state in
      set_pending_data_valid false state
  else state.

(** [if (pin == state->dc_pin)] *)
Definition pin_change_dc (state : gc9a01_state_t) (pin value : Z) : gc9a01_state_t :=
  if decide (pin = dc_pin state) then
    if decide (value = LOW) then set_mode GC9A01_MODE_COMMAND state
    else set_mode GC9A01_MODE_DATA state
  else state.

(** [if (pin == state->rst_pin && value == LOW)] *)
Definition pin_change_rst (state : gc9a01_state_t) (pin value : Z) : gc9a01_state_t :=
  if decide (pin = rst_pin state ∧ value = LOW) then reset_display state
  else state.

Definition gc9a01_pin_change (state : gc9a01_state_t) (pin value : Z) : gc9a01_state_t :=
  let state := pin_change_cs state pin value in
  let state := pin_change_dc state pin value in
  pin_change_rst state pin value.

(** ** Initialisation *)

(** [chip_init]: [calloc] zeroes every field; the three pin handles are
    whatever [pin_init] returns. *)
Definition chip_init (cs dc rst : Z) : gc9a01_state_t :=
  {| cs_pin := cs; dc_pin := dc; rst_pin := rst;
     framebuffer := fill_black 240 240 ∅;
     width := 240; height := 240;
     mode := GC9A01_MODE_COMMAND;
     is_receiving_command := false;
     current_command := 0; expected_args := 0; received_args := 0;
     command_args := replicate 16 0;
     pending_data := 0; pending_data_valid := false;
     col_start := 0; col_end := u16 (u32 (240 - 1));
     row_start := 0; row_end := u16 (u32 (240 - 1));
     current_col := 0; current_row := 0;
     ram_write := false; display_on := false; inverted := false |}.

(** ** Events *)

(** The two entry points of the chip, in the order the simulator calls
    them. *)
Inductive event : Type :=
  | SpiDone (buffer : list Z)
  | PinChange (pin value : Z).

Definition step (state : gc9a01_state_t) (ev : event) : gc9a01_state_t :=
  match ev with
  | SpiDone buffer => gc9a01_spi_done state buffer
  | PinChange pin value => gc9a01_pin_change state pin value
  end.

Definition run (state : gc9a01_state_t) (evs : list event) : gc9a01_state_t :=
  fold_left step evs state.


(** * Vocabulary of the specification *)

(** ** Range of the 16-bit fields *)

Definition is_u16 (z : Z) : Prop := 0 ≤ z < 2 ^ 16.

(** ** Surface *)

(** A word written at [offset] lies inside the [width × height]
    framebuffer of four-byte pixels. *)
Definition in_surface (state : gc9a01_state_t) (offset : Z) : Prop :=
  0 ≤ offset ∧ offset + 4 ≤ width state * height state * 4.

(** The address window lies on the surface. *)
Definition window_in_surface (state : gc9a01_state_t) : Prop :=
  0 ≤ col_start state ∧ col_end state < width state ∧
  0 ≤ row_start state ∧ row_end state < height state ∧
  width state * height state * 4 ≤ 2 ^ 32.

(** The pixel of the surface at column [x], row [y]. *)
Definition surface_pixel (state : gc9a01_state_t) (x y : Z) : option Z :=
  framebuffer state !! pixel_offset (width state) x y.

(** ** Reset baseline *)

Definition reset_baseline (state : gc9a01_state_t) : Prop :=
  col_start state = 0 ∧ col_end state = width state - 1 ∧
  row_start state = 0 ∧ row_end state = height state - 1 ∧
  current_col state = 0 ∧ current_row state = 0 ∧
  display_on state = false ∧ inverted state = false ∧ ram_write state = false ∧
  ∀ x y, 0 ≤ x < width state → 0 ≤ y < height state →
         surface_pixel state x y = Some black.

(** ** Event traces used as concrete inputs *)

(** Pin handles of the concrete runs. *)
Definition CS : Z := 1.
Definition DC : Z := 2.
Definition RST : Z := 3.

Definition power_on : gc9a01_state_t := chip_init CS DC RST.

(** CASET 250..299, RASET 250..299, RAMWR, then the mode line raised: a
    window that lies wholly outside the 240 × 240 surface. *)
Definition window_beyond_surface : list event :=
  [ SpiDone [GC9A01_CASET; 0; 250; 1; 43];
    SpiDone [GC9A01_RASET; 0; 250; 1; 43];
    SpiDone [GC9A01_RAMWR];
    PinChange DC HIGH ].

(** ** Circular mask *)

(** Squared distance of the cursor from [(width/2, width/2)], over the
    integers. *)
Definition center_of (state : gc9a01_state_t) : Z := width state / 2.

Definition distance2 (state : gc9a01_state_t) : Z :=
  (current_col state - center_of state) * (current_col state - center_of state) +
  (current_row state - center_of state) * (current_row state - center_of state).

Definition inside_circle (state : gc9a01_state_t) : Prop :=
  distance2 state ≤ center_of state * center_of state.

(** The [int] expression of the circle test does not overflow. *)
Definition circle_test_defined (state : gc9a01_state_t) : Prop :=
  distance2 state ≤ INT_MAX.

(** RAMWR with the full-surface window of power-on, then the mode line
    raised: the cursor is at the corner (0,0). *)
Definition write_at_corner : list event :=
  [ SpiDone [GC9A01_RAMWR]; PinChange DC HIGH ].

(** CASET 120..239, RASET 120..239, RAMWR, then the mode line raised: the
    cursor is at the centre (120,120). *)
Definition write_at_center : list event :=
  [ SpiDone [GC9A01_CASET; 0; 120; 0; 239];
    SpiDone [GC9A01_RASET; 0; 120; 0; 239];
    SpiDone [GC9A01_RAMWR];
    PinChange DC HIGH ].

(** ** Raster order *)

(** A run of samples handed to the pixel pipeline one after the other. *)
Definition write_samples (state : gc9a01_state_t) (samples : list Z) : gc9a01_state_t :=
  fold_left process_pixel samples state.

Definition window_cols (state : gc9a01_state_t) : Z :=
  col_end state - col_start state + 1.

Definition window_rows (state : gc9a01_state_t) : Z :=
  row_end state - row_start state + 1.

(** Rank of the cursor in the raster order of the window. *)
Definition raster_index (state : gc9a01_state_t) : Z :=
  (current_row state - row_start state) * window_cols state +
  (current_col state - col_start state).

(** The window is not empty and its ends are below the largest 16-bit
    value. *)
Definition window_regular (state : gc9a01_state_t) : Prop :=
  0 ≤ col_start state ≤ col_end state ∧ col_end state < 2 ^ 16 - 1 ∧
  0 ≤ row_start state ≤ row_end state ∧ row_end state < 2 ^ 16 - 1.

(** CASET 0..1, RASET 0..0, RAMWR, the mode line raised: a window of two
    pixels. *)
Definition two_pixel_window : list event :=
  [ SpiDone [GC9A01_CASET; 0; 0; 0; 1];
    SpiDone [GC9A01_RASET; 0; 0; 0; 0];
    SpiDone [GC9A01_RAMWR];
    PinChange DC HIGH ].

(** CASET 65534..65535, RASET 0..0, RAMWR, the mode line raised: a window
    whose last column is the largest 16-bit value. *)
Definition last_column_window : list event :=
  [ SpiDone [GC9A01_CASET; 0xFF; 0xFE; 0xFF; 0xFF];
    SpiDone [GC9A01_RASET; 0; 0; 0; 0];
    SpiDone [GC9A01_RAMWR];
    PinChange DC HIGH ].

(** ** Concrete runs for the control lines *)

(** CASET with three of its four arguments. *)
Definition partial_caset : list event :=
  [ SpiDone [GC9A01_CASET; 0; 10; 0] ].

(** The mode line raised and lowered again. *)
Definition mode_line_pulse : list event :=
  [ PinChange DC HIGH; PinChange DC LOW ].

(** A memory write at the centre that has received the high byte 0xAB of
    a sample. *)
Definition half_sample : list event :=
  write_at_center ++ [ SpiDone [0xAB] ].

(** The mode line lowered and raised again. *)
Definition mode_line_dip : list event :=
  [ PinChange DC LOW; PinChange DC HIGH ].

(** ** States that differ in dead fields only *)

(** [pending_data] and [pending_data_valid] replaced. *)
Definition set_pending (d : Z) (v : bool) (state : gc9a01_state_t) : gc9a01_state_t :=
  set_pending_data d (set_pending_data_valid v state).

(** Two states that agree on every field except, possibly, the pending
    byte and its flag. *)
Definition same_but_pending (s1 s2 : gc9a01_state_t) : Prop :=
  ∃ d v, s2 = set_pending d v s1.

(** The pending byte cannot reach the pixel pipeline: the states agree
    outside the pending fields, and agree on them too while a memory
    write is active. *)
Definition pending_equiv (s1 s2 : gc9a01_state_t) : Prop :=
  same_but_pending s1 s2 ∧
  (ram_write s1 = true →
   pending_data_valid s2 = pending_data_valid s1 ∧
   (pending_data_valid s1 = true → pending_data s2 = pending_data s1)).

(** Whatever high byte is left in [state], no later event sees it. *)
Definition stale_byte_dead (state : gc9a01_state_t) : Prop :=
  ram_write state = false ∧
  ∀ d v evs, same_but_pending (run state evs) (run (set_pending d v state) evs).

(** The fields of the command being assembled, replaced. *)
Definition set_assembly (c e r : Z) (a : list Z) (state : gc9a01_state_t)
    : gc9a01_state_t :=
  set_current_command c (set_expected_args e (set_received_args r
    (set_command_args a state))).

(** A memory write at the corner that has received the high byte 0xAB of
    a sample, then the mode line lowered. *)
Definition half_sample_then_command : list event :=
  write_at_corner ++ [ SpiDone [0xAB]; PinChange DC LOW ].

(** Two states that agree on every field except, possibly, the fields of
    the command being assembled. *)
Definition same_but_assembly (s1 s2 : gc9a01_state_t) : Prop :=
  ∃ c e r a, s2 = set_assembly c e r a s1.

(** The assembly fields are dead while no command is being received:
    the states agree outside them, their argument buffers have the same
    size, and while a command is being received they agree on the opcode,
    the two counters and the arguments received so far. *)
Definition assembly_equiv (s1 s2 : gc9a01_state_t) : Prop :=
  same_but_assembly s1 s2 ∧
  length (command_args s2) = length (command_args s1) ∧
  (is_receiving_command s1 = true →
   current_command s2 = current_command s1 ∧
   expected_args s2 = expected_args s1 ∧
   received_args s2 = received_args s1 ∧
   0 ≤ received_args s1 ∧
   ∀ i : nat, Z.of_nat i < received_args s1 →
              arg (command_args s2) i = arg (command_args s1) i).

(** The opcodes of the command table. *)
Definition known_opcode (b : Z) : Prop :=
  b ∈ [ GC9A01_SWRESET; GC9A01_SLPOUT; GC9A01_DISPON; GC9A01_DISPOFF;
        GC9A01_CASET; GC9A01_RASET; GC9A01_RAMWR; GC9A01_MADCTL;
        GC9A01_COLMOD; GC9A01_INVOFF; GC9A01_INVON ].

(** CASET with two of its four arguments, then the mode line raised: a
    partial command held while the chip is in data mode. *)
Definition partial_caset_in_data_mode : list event :=
  [ SpiDone [GC9A01_CASET; 0; 10]; PinChange DC HIGH ].

(** The select line raised and lowered again. *)
Definition select_line_pulse (state : gc9a01_state_t) : list event :=
  [ PinChange (cs_pin state) HIGH; PinChange (cs_pin state) LOW ].

(** ** Reachable states *)

(** What holds of every state the chip can be in: the surface is
    240 × 240, the window and the cursor are 16-bit values, the argument
    buffer has its sixteen cells, and a command being received has fewer
    arguments than it expects, at most four. *)
Definition state_invariant (state : gc9a01_state_t) : Prop :=
  width state = 240 ∧ height state = 240 ∧
  is_u16 (col_start state) ∧ is_u16 (col_end state) ∧
  is_u16 (row_start state) ∧ is_u16 (row_end state) ∧
  is_u16 (current_col state) ∧ is_u16 (current_row state) ∧
  length (command_args state) = 16%nat ∧
  (is_receiving_command state = true →
   0 ≤ received_args state < expected_args state ∧ expected_args state ≤ 4).

(** CASET 65535..65535, RASET 120..120, RAMWR, the mode line raised: the
    cursor is 65415 columns to the right of the centre. *)
Definition far_column_window : list event :=
  [ SpiDone [GC9A01_CASET; 0xFF; 0xFF; 0xFF; 0xFF];
    SpiDone [GC9A01_RASET; 0; 120; 0; 120];
    SpiDone [GC9A01_RAMWR];
    PinChange DC HIGH ].
(** * Properties *)

(** Closes a goal about a concrete run by evaluating only the fields it
    mentions. *)
Ltac by_evaluation := lazy; repeat split; congruence.

(** Unfolds every field assignment into the record it builds. *)
Ltac unfold_state :=
  lazy beta iota zeta delta
      [set_framebuffer set_mode set_is_receiving_command set_current_command
       set_expected_args set_received_args set_command_args set_pending_data
       set_pending_data_valid set_col_start set_col_end set_row_start set_row_end
       set_current_col set_current_row set_ram_write set_display_on set_inverted
       set_pending set_assembly
       cs_pin dc_pin rst_pin framebuffer width height mode is_receiving_command
       current_command expected_args received_args command_args pending_data
       pending_data_valid col_start col_end row_start row_end current_col
       current_row ram_write display_on inverted] in *.

(** Reads fields through assignments and leaves the other assignments
    folded. *)
Ltac read_fields :=
  cbn [set_framebuffer set_mode set_is_receiving_command set_current_command
       set_expected_args set_received_args set_command_args set_pending_data
       set_pending_data_valid set_col_start set_col_end set_row_start set_row_end
       set_current_col set_current_row set_ram_write set_display_on set_inverted
       set_pending set_assembly
       cs_pin dc_pin rst_pin framebuffer width height mode is_receiving_command
       current_command expected_args received_args command_args pending_data
       pending_data_valid col_start col_end row_start row_end current_col
       current_row ram_write display_on inverted] in *.

(** ** Machine integers *)

Lemma u16_small z : 0 ≤ z < 2 ^ 16 → u16 z = z.
Proof. intros ?. unfold u16. by apply Z.mod_small. Qed.

Lemma u32_small z : 0 ≤ z < 2 ^ 32 → u32 z = z.
Proof. intros ?. unfold u32. by apply Z.mod_small. Qed.

Lemma int32_small z : INT_MIN ≤ z ≤ INT_MAX → int32 z = z.
Proof.
  unfold INT_MIN, INT_MAX, int32. intros ?.
  rewrite Z.mod_small by lia. lia.
Qed.

(** The offset is the mathematical one reduced once. *)
Lemma pixel_offset_mod w x y : pixel_offset w x y = ((y * w + x) * 4) mod 2 ^ 32.
Proof.
  unfold pixel_offset, u32.
  rewrite Z.mul_mod_idemp_l by lia.
  rewrite <- (Z.mul_mod_idemp_l (_ + x)) by lia.
  rewrite Z.add_mod_idemp_l by lia.
  by rewrite Z.mul_mod_idemp_l by lia.
Qed.

Lemma pixel_offset_small w x y :
  0 ≤ x → 0 ≤ y → 0 ≤ w → (y * w + x) * 4 < 2 ^ 32 →
  pixel_offset w x y = (y * w + x) * 4.
Proof.
  intros. rewrite pixel_offset_mod. apply Z.mod_small. nia.
Qed.

(** Every offset the chip computes is word-aligned, so the words of the
    framebuffer never overlap. *)
Lemma pixel_offset_aligned w x y : pixel_offset w x y mod 4 = 0.
Proof.
  rewrite pixel_offset_mod.
  pose proof (Z.div_mod ((y * w + x) * 4) (2 ^ 32)) as Hdm.
  replace (((y * w + x) * 4) mod 2 ^ 32)
    with ((y * w + x - 2 ^ 30 * (((y * w + x) * 4) / 2 ^ 32)) * 4) by lia.
  apply Z.mod_mul. lia.
Qed.

(** ** The stream parser is a fold over the bytes *)

Lemma gc9a01_spi_done_fold state buffer :
  gc9a01_spi_done state buffer = fold_left spi_byte buffer state.
Proof. by destruct buffer. Qed.

Lemma gc9a01_spi_done_app state b1 b2 :
  gc9a01_spi_done state (b1 ++ b2) = gc9a01_spi_done (gc9a01_spi_done state b1) b2.
Proof. rewrite !gc9a01_spi_done_fold. apply fold_left_app. Qed.

(** Claim C2.  Delivering a byte sequence in consecutive chunks, through
    one call of [gc9a01_spi_done] per chunk, gives the same controller
    state and the same framebuffer as delivering the concatenation in a
    single call; chunks may be single bytes or empty. *)
Theorem spi_done_chunking (state : gc9a01_state_t) (chunks : list (list Z)) :
  fold_left gc9a01_spi_done chunks state = gc9a01_spi_done state (concat chunks).
Proof.
  revert state. induction chunks as [|chunk chunks IH]; intros state; simpl.
  - reflexivity.
  - rewrite IH. symmetry. apply gc9a01_spi_done_app.
Qed.

(** ** Pixel writes and the surface *)

Lemma advance_cursor_framebuffer state :
  framebuffer (advance_cursor state) = framebuffer state.
Proof.
  unfold advance_cursor. cbn.
  destruct (col_end state <? u16 (current_col state + 1)); cbn; [|done].
  by destruct (row_end state <? u16 (current_row state + 1)).
Qed.

Lemma process_pixel_outside state pixel_val :
  outside_window state = true → process_pixel state pixel_val = state.
Proof. intros H. unfold process_pixel, pixel_write. by rewrite H. Qed.

Lemma process_pixel_framebuffer state pixel_val offset color :
  pixel_write state pixel_val = Some (offset, color) →
  framebuffer (process_pixel state pixel_val)
  = <[offset := color]> (framebuffer state).
Proof.
  intros H. unfold process_pixel. rewrite H.
  by rewrite advance_cursor_framebuffer.
Qed.

Lemma inside_window_bounds state :
  outside_window state = false →
  col_start state ≤ current_col state ≤ col_end state ∧
  row_start state ≤ current_row state ≤ row_end state.
Proof.
  unfold outside_window. rewrite !orb_false_iff, !Z.ltb_ge. lia.
Qed.

(** Claim C1, counterexample.  From power-on, a driver sets the window to
    columns and rows 250..299 and starts a memory write; the next sample
    makes [process_pixel] call [buffer_write] at offset 241000, past the
    230400 bytes of the 240 × 240 surface. *)
Lemma process_pixel_writes_outside_surface :
  let state := run power_on window_beyond_surface in
  pixel_write state 0xFFFF = Some (241000, black) ∧
  ¬ in_surface state 241000.
Proof.
  split; [reflexivity|].
  unfold in_surface. intros [_ H]. revert H. by lazy.
Qed.

(** Claim C1, amended.  [process_pixel] checks the cursor against the
    address window only.  When the window lies on the surface, a sample
    is either dropped (cursor outside the window, state unchanged) or
    written at an offset inside the framebuffer. *)
Theorem process_pixel_write_in_surface (state : gc9a01_state_t) (pixel_val : Z) :
  window_in_surface state →
  match pixel_write state pixel_val with
  | None =>
      outside_window state = true ∧ process_pixel state pixel_val = state
  | Some (offset, color) =>
      outside_window state = false ∧ in_surface state offset ∧
      framebuffer (process_pixel state pixel_val)
      = <[offset := color]> (framebuffer state)
  end.
Proof.
  intros (Hc0 & Hc1 & Hr0 & Hr1 & Hsz).
  destruct (pixel_write state pixel_val) as [[offset color]|] eqn:Hw.
  - pose proof (process_pixel_framebuffer _ _ _ _ Hw) as Hfb.
    unfold pixel_write in Hw.
    destruct (outside_window state) eqn:Hout; [done|].
    injection Hw as <- _.
    destruct (inside_window_bounds _ Hout) as [Hc Hr].
    split; [done|]. split; [|done].
    unfold in_surface.
    rewrite pixel_offset_small by nia. nia.
  - unfold pixel_write in Hw.
    destruct (outside_window state) eqn:Hout; [|done].
    split; [done|]. by apply process_pixel_outside.
Qed.

Lemma process_pixel_write_in_surface_witness :
  window_in_surface power_on ∧
  in_surface power_on 0.
Proof.
  assert (Hw : window_in_surface power_on).
  { unfold window_in_surface. lazy. repeat split; congruence. }
  split; [exact Hw|].
  exact (proj1 (proj2 (process_pixel_write_in_surface power_on 0xFFFF Hw))).
Defined.

(** ** Painting the surface black *)

Lemma fill_row_keep w y (xs : list Z) (fb : gmap Z Z) k :
  fb !! k = Some black →
  fold_left (fun fb x => buffer_write fb (pixel_offset w x y) black) xs fb !! k
  = Some black.
Proof.
  revert fb. induction xs as [|x xs IH]; intros fb Hk; simpl; [done|].
  apply IH. unfold buffer_write.
  destruct (decide (pixel_offset w x y = k)) as [->|Hne].
  - apply lookup_insert_eq.
  - by rewrite lookup_insert_ne.
Qed.

Lemma fill_row_hit w y (xs : list Z) (fb : gmap Z Z) x :
  x ∈ xs →
  fold_left (fun fb x => buffer_write fb (pixel_offset w x y) black) xs fb
    !! pixel_offset w x y = Some black.
Proof.
  revert fb. induction xs as [|x' xs IH]; intros fb Hx; simpl.
  - by apply elem_of_nil in Hx.
  - apply elem_of_cons in Hx as [->|Hx]; [|by apply IH].
    apply fill_row_keep. unfold buffer_write. apply lookup_insert_eq.
Qed.

Lemma fill_rows_keep w (xs ys : list Z) (fb : gmap Z Z) k :
  fb !! k = Some black →
  fold_left
    (fun fb y =>
       fold_left (fun fb x => buffer_write fb (pixel_offset w x y) black) xs fb)
    ys fb !! k = Some black.
Proof.
  revert fb. induction ys as [|y ys IH]; intros fb Hk; simpl; [done|].
  apply IH. by apply fill_row_keep.
Qed.

Lemma fill_rows_hit w (xs ys : list Z) (fb : gmap Z Z) x y :
  x ∈ xs → y ∈ ys →
  fold_left
    (fun fb y =>
       fold_left (fun fb x => buffer_write fb (pixel_offset w x y) black) xs fb)
    ys fb !! pixel_offset w x y = Some black.
Proof.
  intros Hx. revert fb. induction ys as [|y' ys IH]; intros fb Hy; simpl.
  - by apply elem_of_nil in Hy.
  - apply elem_of_cons in Hy as [->|Hy]; [|by apply IH].
    apply fill_rows_keep. by apply fill_row_hit.
Qed.

Lemma fill_black_pixel w h (fb : gmap Z Z) x y :
  0 ≤ x < w → 0 ≤ y < h →
  fill_black w h fb !! pixel_offset w x y = Some black.
Proof.
  intros Hx Hy. unfold fill_black.
  apply fill_rows_hit; apply elem_of_seqZ; lia.
Qed.

(** ** Reset *)

Lemma reset_display_baseline state :
  1 ≤ width state ≤ 2 ^ 16 → 1 ≤ height state ≤ 2 ^ 16 →
  reset_baseline (reset_display state).
Proof.
  intros Hw Hh. unfold reset_baseline, surface_pixel, reset_display. cbn.
  rewrite (u32_small (width state - 1)), (u32_small (height state - 1)) by lia.
  rewrite !u16_small by lia.
  repeat split; try done.
  intros x y Hx Hy. by apply fill_black_pixel.
Qed.

Lemma process_command_swreset state args len :
  process_command state GC9A01_SWRESET args len = reset_display state.
Proof. reflexivity. Qed.

(** Whatever the select and mode tests did before, a low level on the
    reset pin ends in the reset sequence. *)
Lemma pin_change_cs_pins state pin value :
  cs_pin (pin_change_cs state pin value) = cs_pin state ∧
  dc_pin (pin_change_cs state pin value) = dc_pin state ∧
  rst_pin (pin_change_cs state pin value) = rst_pin state ∧
  width (pin_change_cs state pin value) = width state ∧
  height (pin_change_cs state pin value) = height state.
Proof. unfold pin_change_cs. by repeat case_decide. Qed.

Lemma pin_change_dc_pins state pin value :
  cs_pin (pin_change_dc state pin value) = cs_pin state ∧
  dc_pin (pin_change_dc state pin value) = dc_pin state ∧
  rst_pin (pin_change_dc state pin value) = rst_pin state ∧
  width (pin_change_dc state pin value) = width state ∧
  height (pin_change_dc state pin value) = height state.
Proof. unfold pin_change_dc. by repeat case_decide. Qed.

Lemma pin_change_reset state :
  ∃ state', gc9a01_pin_change state (rst_pin state) LOW = reset_display state' ∧
            width state' = width state ∧ height state' = height state.
Proof.
  unfold gc9a01_pin_change. cbn zeta.
  set (state1 := pin_change_cs state (rst_pin state) LOW).
  set (state2 := pin_change_dc state1 (rst_pin state) LOW).
  destruct (pin_change_cs_pins state (rst_pin state) LOW) as (_ & _ & Hr1 & Hw1 & Hh1).
  destruct (pin_change_dc_pins state1 (rst_pin state) LOW) as (_ & _ & Hr2 & Hw2 & Hh2).
  fold state1 in Hr1, Hw1, Hh1. fold state2 in Hr2, Hw2, Hh2.
  exists state2. unfold pin_change_rst.
  rewrite decide_True by (split; congruence).
  repeat split; congruence.
Qed.

(** Claim C3.  After a reset, by the software-reset opcode given to
    [process_command] or by a low level on the reset line, the address
    window is the full surface, the cursor is (0,0), [display_on],
    [inverted] and [ram_write] are false and every pixel of the surface is
    opaque black, whatever the state was before. *)
Theorem reset_reaches_baseline (state : gc9a01_state_t) (args : list Z) (len : Z) :
  1 ≤ width state ≤ 2 ^ 16 → 1 ≤ height state ≤ 2 ^ 16 →
  reset_baseline (process_command state GC9A01_SWRESET args len) ∧
  reset_baseline (gc9a01_pin_change state (rst_pin state) LOW).
Proof.
  intros Hw Hh. split.
  - rewrite process_command_swreset. by apply reset_display_baseline.
  - destruct (pin_change_reset state) as (state' & -> & Hw' & Hh').
    apply reset_display_baseline; congruence.
Qed.

Lemma reset_reaches_baseline_witness :
  (1 ≤ width power_on ≤ 2 ^ 16 ∧ 1 ≤ height power_on ≤ 2 ^ 16) ∧
  reset_baseline (process_command power_on GC9A01_SWRESET [] 0) ∧
  reset_baseline (gc9a01_pin_change power_on (rst_pin power_on) LOW).
Proof.
  assert (Hw : 1 ≤ width power_on ≤ 2 ^ 16) by (lazy; split; congruence).
  assert (Hh : 1 ≤ height power_on ≤ 2 ^ 16) by (lazy; split; congruence).
  exact (conj (conj Hw Hh) (reset_reaches_baseline power_on [] 0 Hw Hh)).
Defined.

(** ** Circular mask and stored colour *)

(** Where the [int] arithmetic stays in range, the circle test of the
    code is the comparison over the integers. *)
Lemma outside_circle_spec state :
  0 ≤ width state ≤ 2 ^ 16 →
  is_u16 (current_col state) → is_u16 (current_row state) →
  circle_test_defined state →
  outside_circle state = (center_of state * center_of state <? distance2 state).
Proof.
  unfold is_u16, circle_test_defined, distance2, center_of, outside_circle, INT_MAX.
  intros Hw Hc Hr Hd.
  assert (Hcen : 0 ≤ width state / 2 ≤ 2 ^ 15).
  { split; [apply Z.div_pos; lia|].
    apply Z.div_le_upper_bound; lia. }
  set (c := width state / 2) in *.
  rewrite (u32_small c) by lia.
  rewrite (int32_small c) by (unfold INT_MIN, INT_MAX; lia).
  rewrite (int32_small (current_col state - c)) by (unfold INT_MIN, INT_MAX; lia).
  rewrite (int32_small (current_row state - c)) by (unfold INT_MIN, INT_MAX; lia).
  set (dx := current_col state - c) in *.
  set (dy := current_row state - c) in *.
  assert (0 ≤ dx * dx) by nia.
  assert (0 ≤ dy * dy) by nia.
  rewrite (int32_small (c * c)) by (unfold INT_MIN, INT_MAX; nia).
  rewrite (int32_small (dx * dx)) by (unfold INT_MIN, INT_MAX; lia).
  rewrite (int32_small (dy * dy)) by (unfold INT_MIN, INT_MAX; lia).
  rewrite (int32_small (dx * dx + dy * dy)) by (unfold INT_MIN, INT_MAX; lia).
  reflexivity.
Qed.

(** What an in-window sample leaves at the cursor's place. *)
Lemma process_pixel_stores state pixel_val :
  outside_window state = false →
  framebuffer (process_pixel state pixel_val)
    !! pixel_offset (width state) (current_col state) (current_row state)
  = Some (if outside_circle state then black else pixel_color state pixel_val).
Proof.
  intros Hin.
  erewrite process_pixel_framebuffer.
  2: { unfold pixel_write. rewrite Hin. reflexivity. }
  apply lookup_insert_eq.
Qed.

(** Claim C4.  A sample written with inversion off, the cursor inside
    the address window and inside the centred circle, leaves at the
    cursor's place exactly
    [0xff000000 | (s & 0x001F) << 19 | (s & 0x07E0) << 5 | (s & 0xF800) >> 8],
    [s] being the sample. *)
Theorem sample_stored_as_expand565 (state : gc9a01_state_t) (sample : Z) :
  0 ≤ width state ≤ 2 ^ 16 →
  is_u16 (current_col state) → is_u16 (current_row state) →
  inverted state = false →
  outside_window state = false →
  inside_circle state →
  framebuffer (process_pixel state sample)
    !! pixel_offset (width state) (current_col state) (current_row state)
  = Some (Z.lor (Z.lor (Z.lor 0xff000000 (Z.shiftl (Z.land sample 0x001F) 19))
                       (Z.shiftl (Z.land sample 0x07E0) 5))
                (Z.shiftr (Z.land sample 0xF800) 8)).
Proof.
  intros Hw Hc Hr Hinv Hin Hcirc.
  rewrite process_pixel_stores by done.
  assert (Hcen : 0 ≤ center_of state ≤ 2 ^ 15).
  { unfold center_of. split; [apply Z.div_pos; lia|].
    apply Z.div_le_upper_bound; lia. }
  rewrite outside_circle_spec; try done.
  - unfold inside_circle in Hcirc.
    destruct (Z.ltb_spec (center_of state * center_of state) (distance2 state));
      [lia|].
    unfold pixel_color. by rewrite Hinv.
  - unfold circle_test_defined, INT_MAX. unfold inside_circle in Hcirc. nia.
Qed.

Lemma sample_stored_as_expand565_witness :
  let state := run power_on write_at_center in
  (0 ≤ width state ≤ 2 ^ 16 ∧ is_u16 (current_col state) ∧
   is_u16 (current_row state) ∧ inverted state = false ∧
   outside_window state = false ∧ inside_circle state) ∧
  framebuffer (process_pixel state 0xABCD)
    !! pixel_offset (width state) (current_col state) (current_row state)
  = Some (Z.lor (Z.lor (Z.lor 0xff000000 (Z.shiftl (Z.land 0xABCD 0x001F) 19))
                       (Z.shiftl (Z.land 0xABCD 0x07E0) 5))
                (Z.shiftr (Z.land 0xABCD 0xF800) 8)).
Proof.
  intros state.
  assert (H1 : 0 ≤ width state ≤ 2 ^ 16) by by_evaluation.
  assert (H2 : is_u16 (current_col state)) by by_evaluation.
  assert (H3 : is_u16 (current_row state)) by by_evaluation.
  assert (H4 : inverted state = false) by reflexivity.
  assert (H5 : outside_window state = false) by reflexivity.
  assert (H6 : inside_circle state) by by_evaluation.
  exact (conj (conj H1 (conj H2 (conj H3 (conj H4 (conj H5 H6)))))
              (sample_stored_as_expand565 state 0xABCD H1 H2 H3 H4 H5 H6)).
Defined.

(** Claim C5.  On the 240 × 240 surface, for every sample and either
    inversion setting: the pixel is forced to opaque black exactly when
    dx² + dy² > (width/2)², with (dx,dy) the offset of the cursor from
    (width/2, width/2); a sample written at (0,0) stores opaque black; a
    sample written at (120,120) stores the converted colour, inverted when
    inversion is on. *)
Theorem circular_mask (state : gc9a01_state_t) (sample : Z) :
  width state = 240 →
  is_u16 (current_col state) → is_u16 (current_row state) →
  circle_test_defined state →
  outside_window state = false →
  let stored :=
    framebuffer (process_pixel state sample)
      !! pixel_offset (width state) (current_col state) (current_row state) in
  let converted :=
    if inverted state then invert_color (rgb565_to_rgba sample)
    else rgb565_to_rgba sample in
  (outside_circle state = true ↔
     (current_col state - 120) * (current_col state - 120) +
     (current_row state - 120) * (current_row state - 120) > 120 * 120) ∧
  stored = Some (if outside_circle state then black else converted) ∧
  (current_col state = 0 → current_row state = 0 → stored = Some black) ∧
  (current_col state = 120 → current_row state = 120 → stored = Some converted).
Proof.
  intros Hw Hc Hr Hdef Hin stored converted.
  assert (Hstored : stored = Some (if outside_circle state then black else converted)).
  { subst stored converted. by rewrite process_pixel_stores. }
  assert (Hspec : outside_circle state = (120 * 120 <? distance2 state)).
  { rewrite outside_circle_spec by (try done; lia).
    unfold center_of. by rewrite Hw. }
  assert (Hdist : distance2 state
                  = (current_col state - 120) * (current_col state - 120) +
                    (current_row state - 120) * (current_row state - 120)).
  { unfold distance2, center_of. by rewrite Hw. }
  split; [|split; [done|split]].
  - rewrite Hspec, Z.ltb_lt, Hdist. lia.
  - intros Hc0 Hr0. rewrite Hstored, Hspec, Hdist, Hc0, Hr0. reflexivity.
  - intros Hc0 Hr0. rewrite Hstored, Hspec, Hdist, Hc0, Hr0. reflexivity.
Qed.

Lemma circular_mask_witness :
  let corner := run power_on write_at_corner in
  let center := run power_on write_at_center in
  (current_col corner = 0 ∧ current_row corner = 0 ∧
   framebuffer (process_pixel corner 0xFFFF) !! pixel_offset (width corner) 0 0
   = Some black) ∧
  (current_col center = 120 ∧ current_row center = 120 ∧
   framebuffer (process_pixel center 0xFFFF) !! pixel_offset (width center) 120 120
   = Some (rgb565_to_rgba 0xFFFF)).
Proof.
  intros corner center. split.
  - assert (H1 : width corner = 240) by reflexivity.
    assert (H2 : is_u16 (current_col corner)) by by_evaluation.
    assert (H3 : is_u16 (current_row corner)) by by_evaluation.
    assert (H4 : circle_test_defined corner) by by_evaluation.
    assert (H5 : outside_window corner = false) by reflexivity.
    exact (conj eq_refl (conj eq_refl
             (proj1 (proj2 (proj2 (circular_mask corner 0xFFFF H1 H2 H3 H4 H5)))
                    eq_refl eq_refl))).
  - assert (H1 : width center = 240) by reflexivity.
    assert (H2 : is_u16 (current_col center)) by by_evaluation.
    assert (H3 : is_u16 (current_row center)) by by_evaluation.
    assert (H4 : circle_test_defined center) by by_evaluation.
    assert (H5 : outside_window center = false) by reflexivity.
    exact (conj eq_refl (conj eq_refl
             (proj2 (proj2 (proj2 (circular_mask center 0xFFFF H1 H2 H3 H4 H5)))
                    eq_refl eq_refl))).
Defined.

(** ** Cursor movement *)

(** Claim C6, counterexample.  With the two-pixel window (columns 0..1,
    row 0) and the cursor at its start, (1·2)+1 = 3 samples leave the
    cursor at (1,0), not at (0,0): it is back at the start after two.
    With last column 65535 the 16-bit increment wraps to 0 without passing
    [col_end], and the cursor leaves the window. *)
Lemma cursor_after_one_more_sample :
  (let state := run power_on two_pixel_window in
   (current_col state, current_row state) = (0, 0) ∧
   (let state' := write_samples state [0; 0] in
    (current_col state', current_row state') = (0, 0)) ∧
   (let state' := write_samples state [0; 0; 0] in
    (current_col state', current_row state') = (1, 0))) ∧
  (let state := run power_on last_column_window in
   (col_start state, col_end state) = (65534, 65535) ∧
   outside_window state = false ∧
   (let state' := write_samples state [0; 0] in
    current_col state' = 0 ∧ outside_window state' = true)).
Proof. lazy. repeat split; reflexivity. Qed.

(** One in-window sample: the window and the width stay, the cursor
    moves by the raster rule. *)
Lemma process_pixel_cursor state sample :
  window_regular state → outside_window state = false →
  let state' := process_pixel state sample in
  col_start state' = col_start state ∧ col_end state' = col_end state ∧
  row_start state' = row_start state ∧ row_end state' = row_end state ∧
  (current_col state', current_row state')
  = if current_col state <? col_end state
    then (current_col state + 1, current_row state)
    else if current_row state <? row_end state
         then (col_start state, current_row state + 1)
         else (col_start state, row_start state).
Proof.
  intros (Hc & Hc1 & Hr & Hr1) Hin.
  destruct (inside_window_bounds _ Hin) as [Hcol Hrow].
  unfold process_pixel, pixel_write. rewrite Hin.
  unfold advance_cursor.
  cbn [set_framebuffer set_current_col set_current_row current_col current_row
       col_start col_end row_start row_end].
  rewrite (u16_small (current_col state + 1)) by lia.
  rewrite (u16_small (current_row state + 1)) by lia.
  destruct (Z.ltb_spec (col_end state) (current_col state + 1)) as [H1|H1];
    destruct (Z.ltb_spec (current_col state) (col_end state)) as [H2|H2];
    try lia;
    cbn [set_framebuffer set_current_col set_current_row current_col current_row
         col_start col_end row_start row_end]; [|done].
  destruct (Z.ltb_spec (row_end state) (current_row state + 1)) as [H3|H3];
    destruct (Z.ltb_spec (current_row state) (row_end state)) as [H4|H4];
    try lia; done.
Qed.

Lemma process_pixel_raster state sample :
  window_regular state → outside_window state = false →
  let state' := process_pixel state sample in
  window_regular state' ∧ outside_window state' = false ∧
  window_cols state' = window_cols state ∧
  window_rows state' = window_rows state ∧
  col_start state' = col_start state ∧ row_start state' = row_start state ∧
  raster_index state'
  = (raster_index state + 1) mod (window_cols state * window_rows state).
Proof.
  intros Hreg Hin state'.
  destruct (process_pixel_cursor state sample Hreg Hin)
    as (Hcs & Hce & Hrs & Hre & Hcur).
  fold state' in Hcs, Hce, Hrs, Hre, Hcur.
  destruct (inside_window_bounds _ Hin) as [Hcol Hrow].
  destruct Hreg as (Hc & Hc1 & Hr & Hr1).
  assert (Hpos : current_col state' = fst (current_col state', current_row state'))
    by done.
  assert (Hpos' : current_row state' = snd (current_col state', current_row state'))
    by done.
  rewrite Hcur in Hpos, Hpos'. clear Hcur.
  unfold window_regular, outside_window, raster_index, window_cols, window_rows.
  rewrite Hcs, Hce, Hrs, Hre, Hpos, Hpos'.
  set (W := col_end state - col_start state + 1).
  set (H := row_end state - row_start state + 1).
  set (i := current_col state - col_start state).
  set (j := current_row state - row_start state).
  assert (Hi : 0 ≤ i < W) by (unfold i, W; lia).
  assert (Hj : 0 ≤ j < H) by (unfold j, H; lia).
  destruct (Z.ltb_spec (current_col state) (col_end state)) as [H2|H2].
  - cbn [fst snd]. repeat split; try lia.
    fold i j. rewrite Z.mod_small by nia. lia.
  - destruct (Z.ltb_spec (current_row state) (row_end state)) as [H4|H4].
    + cbn [fst snd]. repeat split; try lia.
      fold i j. rewrite Z.mod_small by nia. unfold i, j, W in *. nia.
    + cbn [fst snd]. repeat split; try lia.
      fold i j.
      replace (j * W + i + 1) with (1 * (W * H)) by (unfold i, j, W, H; nia).
      rewrite Z.mod_mul by nia. lia.
Qed.

Lemma raster_index_cursor state :
  window_regular state → outside_window state = false →
  0 ≤ raster_index state < window_cols state * window_rows state ∧
  current_col state = col_start state + raster_index state mod window_cols state ∧
  current_row state = row_start state + raster_index state / window_cols state.
Proof.
  intros (Hc & Hc1 & Hr & Hr1) Hin.
  destruct (inside_window_bounds _ Hin) as [Hcol Hrow].
  unfold raster_index, window_cols, window_rows.
  set (W := col_end state - col_start state + 1).
  set (i := current_col state - col_start state).
  set (j := current_row state - row_start state).
  assert (Hi : 0 ≤ i < W) by (unfold i, W; lia).
  assert (Hj : 0 ≤ j < row_end state - row_start state + 1) by (unfold j; lia).
  rewrite (Z.add_comm (j * W) i), Z.mod_add, Z.div_add by lia.
  rewrite Z.mod_small, Z.div_small by lia.
  unfold i, j. split; [nia|lia].
Qed.

Lemma write_samples_raster samples : ∀ state,
  window_regular state → outside_window state = false →
  let state' := write_samples state samples in
  window_regular state' ∧ outside_window state' = false ∧
  window_cols state' = window_cols state ∧
  window_rows state' = window_rows state ∧
  col_start state' = col_start state ∧ row_start state' = row_start state ∧
  raster_index state'
  = (raster_index state + Z.of_nat (length samples))
      mod (window_cols state * window_rows state).
Proof.
  induction samples as [|sample samples IH]; intros state Hreg Hin; cbn zeta.
  - cbn [write_samples fold_left length]. repeat split; try done; try apply Hreg.
    rewrite Z.add_0_r, Z.mod_small; [done|].
    by apply raster_index_cursor.
  - change (write_samples state (sample :: samples))
      with (write_samples (process_pixel state sample) samples).
    destruct (process_pixel_raster state sample Hreg Hin)
      as (Hreg1 & Hin1 & HW & HH & Hcs & Hrs & Hidx).
    destruct (IH _ Hreg1 Hin1) as (Hreg2 & Hin2 & HW2 & HH2 & Hcs2 & Hrs2 & Hidx2).
    repeat split; try done; try apply Hreg2; try congruence.
    rewrite Hidx2, Hidx, HW, HH.
    rewrite Z.add_mod_idemp_l.
    + f_equal. rewrite length_cons. lia.
    + pose proof (raster_index_cursor state Hreg Hin). lia.
Qed.

(** Claim C6, amended.  In a window whose ends are below 65535, every
    in-window sample moves the cursor one column on; past [col_end] the
    column goes back to [col_start] and the row moves on; past [row_end]
    the row goes back to [row_start]; the cursor stays in the window.
    After [k] samples the cursor is [k] places further in the raster order
    of the window, modulo its size.  So from (c0,r0) the cursor is back at
    (c0,r0) after exactly (c1−c0+1)×(r1−r0+1) samples and not before; the
    next sample is written there again. *)
Theorem cursor_raster_order (state : gc9a01_state_t) (sample : Z) (samples : list Z) :
  window_regular state → outside_window state = false →
  let W := window_cols state in
  let q := (raster_index state + Z.of_nat (length samples))
             mod (W * window_rows state) in
  let state' := write_samples state samples in
  (current_col (process_pixel state sample), current_row (process_pixel state sample))
  = (if current_col state <? col_end state
     then (current_col state + 1, current_row state)
     else if current_row state <? row_end state
          then (col_start state, current_row state + 1)
          else (col_start state, row_start state)) ∧
  outside_window state' = false ∧
  (col_start state' = col_start state ∧ col_end state' = col_end state ∧
   row_start state' = row_start state ∧ row_end state' = row_end state) ∧
  current_col state' = col_start state + q mod W ∧
  current_row state' = row_start state + q / W ∧
  (current_col state' = col_start state ∧ current_row state' = row_start state
   ↔ q = 0).
Proof.
  intros Hreg Hin W q state'.
  destruct (write_samples_raster samples state Hreg Hin)
    as (Hreg' & Hin' & HW & HH & Hcs & Hrs & Hidx).
  fold state' in Hreg', Hin', HW, HH, Hcs, Hrs, Hidx.
  fold W in Hidx. fold q in Hidx.
  destruct (raster_index_cursor state' Hreg' Hin') as (Hq & Hcol & Hrow).
  rewrite HW, Hidx, Hcs in Hcol. rewrite HW, Hidx, Hrs in Hrow.
  rewrite HW, HH, Hidx in Hq. fold W in Hcol, Hrow, Hq.
  assert (HWpos : 0 < W) by (unfold W, window_cols; destruct Hreg; lia).
  split; [by apply process_pixel_cursor|].
  split; [done|]. split.
  { unfold window_cols, window_rows in HW, HH. repeat split; lia. }
  split; [done|]. split; [done|].
  rewrite Hcol, Hrow. split.
  - intros [H1 H2].
    assert (q mod W = 0) by lia. assert (q / W = 0) by lia.
    rewrite (Z.div_mod q W) by lia. nia.
  - intros ->. rewrite Z.mod_0_l, Z.div_0_l by lia. lia.
Qed.

Lemma cursor_raster_order_witness :
  let state := run power_on two_pixel_window in
  (window_regular state ∧ outside_window state = false) ∧
  current_col (write_samples state [0; 0; 0])
  = col_start state
    + ((raster_index state + Z.of_nat (length [0; 0; 0]))
         mod (window_cols state * window_rows state)) mod window_cols state.
Proof.
  intros state.
  assert (H1 : window_regular state) by by_evaluation.
  assert (H2 : outside_window state = false) by reflexivity.
  exact (conj (conj H1 H2)
           (proj1 (proj2 (proj2 (proj2
              (cursor_raster_order state 0 [0; 0; 0] H1 H2)))))).
Defined.

(** ** Mode line *)

Lemma set_mode_same state : set_mode (mode state) state = state.
Proof. by destruct state. Qed.

Lemma set_mode_twice m m' state : set_mode m (set_mode m' state) = set_mode m state.
Proof. by destruct state. Qed.

Lemma run_app state evs1 evs2 :
  run state (evs1 ++ evs2) = run (run state evs1) evs2.
Proof. apply fold_left_app. Qed.

(** Claim C7, counterexample.  CASET has three of its four arguments when
    the mode line goes high and low again; the next byte completes the
    command and the window becomes 10..20.  A memory write holds the high
    byte 0xAB when the mode line goes low and high again; the next byte
    0xCD is paired with it and the sample 0xABCD is written at the
    cursor. *)
Lemma mode_line_keeps_partial_input :
  (let before := run power_on partial_caset in
   let after := run before (mode_line_pulse ++ [SpiDone [20]]) in
   is_receiving_command before = true ∧
   received_args before = 3 ∧ expected_args before = 4 ∧
   (col_start before, col_end before) = (0, 239) ∧
   (col_start after, col_end after) = (10, 20)) ∧
  (let before := run power_on half_sample in
   let after := run before (mode_line_dip ++ [SpiDone [0xCD]]) in
   pending_data_valid before = true ∧ pending_data before = 0xAB ∧
   (current_col before, current_row before) = (120, 120) ∧
   (current_col after, current_row after) = (121, 120) ∧
   framebuffer after !! pixel_offset 240 120 120 = Some (rgb565_to_rgba 0xABCD)).
Proof.
  split.
  - lazy. repeat split; reflexivity.
  - lazy zeta.
    do 4 (split; [reflexivity|]).
    rewrite run_app.
    set (state := run (run power_on half_sample) mode_line_dip).
    change (run state [SpiDone [0xCD]]) with (spi_byte state 0xCD).
    assert (Hm : mode state = GC9A01_MODE_DATA) by reflexivity.
    assert (Hr : ram_write state = true) by reflexivity.
    assert (Hv : pending_data_valid state = true) by reflexivity.
    assert (Hd : pending_data state = 0xAB) by reflexivity.
    unfold spi_byte. rewrite Hm, Hr, Hv, Hd.
    set (state0 := set_pending_data_valid false state).
    assert (Hin : outside_window state0 = false) by reflexivity.
    assert (Hw : width state0 = 240) by reflexivity.
    assert (Hc : current_col state0 = 120) by reflexivity.
    assert (Hrow : current_row state0 = 120) by reflexivity.
    assert (Hcirc : outside_circle state0 = false) by reflexivity.
    assert (Hinv : inverted state0 = false) by reflexivity.
    pose proof (process_pixel_stores state0 (u16 (Z.lor (Z.shiftl 0xAB 8) 0xCD)) Hin)
      as Hst.
    rewrite Hw, Hc, Hrow, Hcirc in Hst. unfold pixel_color in Hst.
    rewrite Hinv in Hst. exact Hst.
Qed.

(** Claim C7, amended.  A transition on the mode line sets [mode] and
    nothing else: the command being assembled, its arguments and the
    pending high byte keep their values.  When the line is back at its
    former level the state is what it was before the two transitions, so
    the bytes that follow complete the partial command or sample. *)
Theorem mode_line_sets_mode_only (state : gc9a01_state_t) (value value' : Z) :
  dc_pin state ≠ cs_pin state → dc_pin state ≠ rst_pin state →
  let state' := gc9a01_pin_change state (dc_pin state) value in
  state'
  = set_mode (if decide (value = LOW) then GC9A01_MODE_COMMAND
              else GC9A01_MODE_DATA) state ∧
  is_receiving_command state' = is_receiving_command state ∧
  current_command state' = current_command state ∧
  expected_args state' = expected_args state ∧
  received_args state' = received_args state ∧
  command_args state' = command_args state ∧
  pending_data_valid state' = pending_data_valid state ∧
  pending_data state' = pending_data state ∧
  (mode (gc9a01_pin_change state' (dc_pin state) value') = mode state →
   gc9a01_pin_change state' (dc_pin state) value' = state).
Proof.
  intros Hcs Hrst state'.
  assert (Hdc : ∀ st v,
             dc_pin st ≠ cs_pin st → dc_pin st ≠ rst_pin st →
             gc9a01_pin_change st (dc_pin st) v
             = set_mode (if decide (v = LOW) then GC9A01_MODE_COMMAND
                         else GC9A01_MODE_DATA) st).
  { intros st v H1 H2.
    unfold gc9a01_pin_change, pin_change_cs, pin_change_dc, pin_change_rst.
    destruct (decide (dc_pin st = cs_pin st)) as [|_]; [done|].
    lazy zeta.
    destruct (decide (dc_pin st = dc_pin st)) as [_|]; [|done].
    destruct (decide (v = LOW)); cbn [rst_pin set_mode];
      (destruct (decide (dc_pin st = rst_pin st ∧ _)) as [[? _]|_]; done). }
  assert (Heq := Hdc state value Hcs Hrst). fold state' in Heq.
  split; [exact Heq|].
  rewrite Heq. repeat (split; [by destruct (decide (value = LOW))|]).
  intros Hback.
  rewrite <- Heq in *.
  assert (Hpins : dc_pin state' = dc_pin state ∧ cs_pin state' = cs_pin state ∧
                  rst_pin state' = rst_pin state).
  { rewrite Heq. by destruct (decide (value = LOW)). }
  destruct Hpins as (Hp1 & Hp2 & Hp3).
  rewrite <- Hp1 in Hback |- *.
  rewrite Hdc in Hback |- * by congruence.
  rewrite Heq, set_mode_twice.
  rewrite Heq, set_mode_twice in Hback.
  assert (Hm : (if decide (value' = LOW) then GC9A01_MODE_COMMAND
                else GC9A01_MODE_DATA) = mode state).
  { rewrite <- Hback. by destruct state. }
  rewrite Hm. apply set_mode_same.
Qed.

Lemma mode_line_sets_mode_only_witness :
  let state := run power_on partial_caset in
  (dc_pin state ≠ cs_pin state ∧ dc_pin state ≠ rst_pin state) ∧
  is_receiving_command (gc9a01_pin_change state (dc_pin state) HIGH)
  = is_receiving_command state ∧
  gc9a01_pin_change (gc9a01_pin_change state (dc_pin state) HIGH) (dc_pin state) LOW
  = state.
Proof.
  intros state.
  assert (H1 : dc_pin state ≠ cs_pin state) by by_evaluation.
  assert (H2 : dc_pin state ≠ rst_pin state) by by_evaluation.
  assert (H3 : mode (gc9a01_pin_change
                       (gc9a01_pin_change state (dc_pin state) HIGH)
                       (dc_pin state) LOW) = mode state) by by_evaluation.
  pose proof (mode_line_sets_mode_only state HIGH LOW H1 H2) as H.
  lazy zeta in H.
  destruct H as (_ & Hrecv & _ & _ & _ & _ & _ & _ & Hback).
  exact (conj (conj H1 H2) (conj Hrecv (Hback H3))).
Defined.

(** ** The pending byte *)

(** Claim C8, counterexample.  A memory write has received the high byte
    of a sample.  After the software-reset opcode, and likewise after a
    low level on the reset line, [pending_data_valid] is still true;
    [ram_write] is false. *)
Lemma reset_leaves_pending_flag :
  let before := run power_on half_sample_then_command in
  pending_data_valid before = true ∧
  (let after := run before [SpiDone [GC9A01_SWRESET]] in
   pending_data_valid after = true ∧ ram_write after = false) ∧
  (let after := run before [PinChange RST LOW] in
   pending_data_valid after = true ∧ ram_write after = false).
Proof. lazy. repeat split; reflexivity. Qed.

Lemma pending_equiv_refl state : pending_equiv state state.
Proof.
  split; [|done].
  exists (pending_data state), (pending_data_valid state). by destruct state.
Qed.


Lemma set_pending_same state :
  set_pending (pending_data state) (pending_data_valid state) state = state.
Proof. by destruct state. Qed.

Lemma pending_equiv_fields s1 s2 :
  pending_equiv s1 s2 →
  mode s2 = mode s1 ∧ is_receiving_command s2 = is_receiving_command s1 ∧
  current_command s2 = current_command s1 ∧
  expected_args s2 = expected_args s1 ∧ received_args s2 = received_args s1 ∧
  command_args s2 = command_args s1 ∧ ram_write s2 = ram_write s1 ∧
  cs_pin s2 = cs_pin s1 ∧ dc_pin s2 = dc_pin s1 ∧ rst_pin s2 = rst_pin s1.
Proof. intros [(d & v & ->) _]. by destruct s1. Qed.

Lemma pending_equiv_process_command s1 s2 command args len :
  pending_equiv s1 s2 →
  pending_equiv (process_command s1 command args len)
                (process_command s2 command args len).
Proof.
  intros [(d & v & ->) H]. destruct s1.
  unfold pending_equiv, same_but_pending, process_command, reset_display.
  repeat case_decide; unfold_state;
    (split; [first [by exists d, v | by exists d, false]|]);
    first [done | by intros; apply H].
Qed.

(** An assignment to a field other than the pending byte keeps the
    relation, as long as it does not switch the memory write on. *)
Ltac pending_equiv_setter :=
  intros [(d & v & ->) H]; split;
  [ exists d, v;
    match goal with |- context [set_pending _ _ ?s] => by destruct s end
  | read_fields; first [exact H | done] ].

Lemma pending_equiv_set_current_command c s1 s2 :
  pending_equiv s1 s2 →
  pending_equiv (set_current_command c s1) (set_current_command c s2).
Proof. pending_equiv_setter. Qed.

Lemma pending_equiv_set_is_receiving_command c s1 s2 :
  pending_equiv s1 s2 →
  pending_equiv (set_is_receiving_command c s1) (set_is_receiving_command c s2).
Proof. pending_equiv_setter. Qed.

Lemma pending_equiv_set_received_args c s1 s2 :
  pending_equiv s1 s2 →
  pending_equiv (set_received_args c s1) (set_received_args c s2).
Proof. pending_equiv_setter. Qed.

Lemma pending_equiv_set_expected_args c s1 s2 :
  pending_equiv s1 s2 →
  pending_equiv (set_expected_args c s1) (set_expected_args c s2).
Proof. pending_equiv_setter. Qed.

Lemma pending_equiv_set_command_args c s1 s2 :
  pending_equiv s1 s2 →
  pending_equiv (set_command_args c s1) (set_command_args c s2).
Proof. pending_equiv_setter. Qed.

Lemma pending_equiv_set_mode c s1 s2 :
  pending_equiv s1 s2 → pending_equiv (set_mode c s1) (set_mode c s2).
Proof. pending_equiv_setter. Qed.

Lemma pending_equiv_set_ram_write_off s1 s2 :
  pending_equiv s1 s2 →
  pending_equiv (set_ram_write false s1) (set_ram_write false s2).
Proof. pending_equiv_setter. Qed.

Lemma pending_equiv_clear_valid s1 s2 :
  pending_equiv s1 s2 →
  pending_equiv (set_pending_data_valid false s1) (set_pending_data_valid false s2).
Proof.
  intros [(d & v & ->) H]. split; [|done].
  exists d, false. by destruct s1.
Qed.

Lemma pending_equiv_spi_byte s1 s2 b :
  pending_equiv s1 s2 → pending_equiv (spi_byte s1 b) (spi_byte s2 b).
Proof.
  intros Heq.
  destruct (pending_equiv_fields _ _ Heq)
    as (Hm & Hrc & Hcc & Hea & Hra & Hca & Hrw & _).
  unfold spi_byte. read_fields. rewrite Hm, Hrc, Hrw, Hra, Hca.
  destruct (mode s1).
  - destruct (is_receiving_command s1); cbn [negb].
    + rewrite Hea, Hcc. case_match.
      * apply pending_equiv_set_is_receiving_command, pending_equiv_process_command.
        by apply pending_equiv_set_received_args, pending_equiv_set_command_args.
      * by apply pending_equiv_set_received_args, pending_equiv_set_command_args.
    + case_decide.
      * apply pending_equiv_set_is_receiving_command, pending_equiv_process_command.
        by apply pending_equiv_set_expected_args, pending_equiv_set_received_args,
          pending_equiv_set_is_receiving_command, pending_equiv_set_current_command.
      * by apply pending_equiv_set_expected_args, pending_equiv_set_received_args,
          pending_equiv_set_is_receiving_command, pending_equiv_set_current_command.
  - destruct Heq as [(d & v & ->) H]. read_fields.
    destruct (ram_write s1) eqn:Hram; [|split; [by exists d, v|congruence]].
    destruct (H eq_refl) as [-> Hd].
    destruct (pending_data_valid s1) eqn:Hv.
    + pose proof (Hd eq_refl) as ->.
      assert (set_pending (pending_data s1) true s1 = s1) as ->.
      { rewrite <- Hv at 1. apply set_pending_same. }
      apply pending_equiv_refl.
    + replace (set_pending_data_valid true (set_pending_data b (set_pending d false s1)))
        with (set_pending_data_valid true (set_pending_data b s1))
        by (by destruct s1).
      apply pending_equiv_refl.
Qed.

Lemma pending_equiv_pin_change s1 s2 pin value :
  pending_equiv s1 s2 →
  pending_equiv (gc9a01_pin_change s1 pin value) (gc9a01_pin_change s2 pin value).
Proof.
  intros Heq. unfold gc9a01_pin_change. cbn zeta.
  assert (Hcs : pending_equiv (pin_change_cs s1 pin value) (pin_change_cs s2 pin value)).
  { destruct (pending_equiv_fields _ _ Heq) as (_ & _ & _ & _ & _ & _ & _ & Hp & _).
    unfold pin_change_cs. rewrite Hp. repeat case_decide; [| |done].
    - by apply pending_equiv_clear_valid, pending_equiv_set_is_receiving_command.
    - by apply pending_equiv_clear_valid, pending_equiv_set_is_receiving_command,
        pending_equiv_set_ram_write_off. }
  revert Hcs.
  generalize (pin_change_cs s1 pin value), (pin_change_cs s2 pin value).
  clear s1 s2 Heq. intros s1 s2 Heq.
  assert (Hdc : pending_equiv (pin_change_dc s1 pin value) (pin_change_dc s2 pin value)).
  { destruct (pending_equiv_fields _ _ Heq) as (_ & _ & _ & _ & _ & _ & _ & _ & Hp & _).
    unfold pin_change_dc. rewrite Hp. repeat case_decide; [| |done];
      by apply pending_equiv_set_mode. }
  revert Hdc.
  generalize (pin_change_dc s1 pin value), (pin_change_dc s2 pin value).
  clear s1 s2 Heq. intros s1 s2 Heq.
  destruct (pending_equiv_fields _ _ Heq) as (_ & _ & _ & _ & _ & _ & _ & _ & _ & Hp).
  unfold pin_change_rst. rewrite Hp. case_decide; [|done].
  by apply (pending_equiv_process_command _ _ GC9A01_SWRESET [] 0).
Qed.

Lemma pending_equiv_step s1 s2 ev :
  pending_equiv s1 s2 → pending_equiv (step s1 ev) (step s2 ev).
Proof.
  intros Heq. destruct ev as [buffer|pin value]; cbn [step].
  - rewrite !gc9a01_spi_done_fold. revert s1 s2 Heq.
    induction buffer as [|b buffer IH]; intros s1 s2 Heq; [done|].
    cbn [fold_left]. by apply IH, pending_equiv_spi_byte.
  - by apply pending_equiv_pin_change.
Qed.

Lemma pending_equiv_run evs : ∀ s1 s2,
  pending_equiv s1 s2 → pending_equiv (run s1 evs) (run s2 evs).
Proof.
  induction evs as [|ev evs IH]; intros s1 s2 Heq; [done|].
  cbn [run fold_left]. by apply IH, pending_equiv_step.
Qed.

Lemma ram_write_off_stale_byte_dead state :
  ram_write state = false → stale_byte_dead state.
Proof.
  intros Hoff. split; [done|]. intros d v evs.
  apply pending_equiv_run. split; [by exists d, v|congruence].
Qed.

Lemma pin_change_cs_high state value :
  value ≠ LOW →
  pending_data_valid (gc9a01_pin_change state (cs_pin state) value) = false ∧
  ram_write (gc9a01_pin_change state (cs_pin state) value) = false.
Proof.
  intros Hhigh. unfold gc9a01_pin_change. cbn zeta.
  assert (Hcs : pending_data_valid (pin_change_cs state (cs_pin state) value) = false ∧
                ram_write (pin_change_cs state (cs_pin state) value) = false).
  { unfold pin_change_cs. by rewrite decide_True, decide_False. }
  revert Hcs. generalize (pin_change_cs state (cs_pin state) value).
  intros state1 [Hv Hr].
  assert (Hdc : pending_data_valid (pin_change_dc state1 (cs_pin state) value) = false ∧
                ram_write (pin_change_dc state1 (cs_pin state) value) = false).
  { unfold pin_change_dc. by repeat case_decide. }
  revert Hdc. generalize (pin_change_dc state1 (cs_pin state) value).
  intros state2 [Hv2 Hr2].
  unfold pin_change_rst. rewrite decide_False; [done|]. by intros [_ ?].
Qed.

(** Claim C8, amended.  Deactivating the select line clears [ram_write]
    and [pending_data_valid].  The software-reset opcode and a low level
    on the reset line clear [ram_write] and leave [pending_data_valid] as
    it was.  After any of the three the byte held in [pending_data] is
    dead: whatever events follow, the state they lead to is the one they
    would lead to with any other pending byte and flag, up to those two
    fields.  (RAMWR, the only way to switch the memory write on again,
    clears the flag.) *)
Theorem stale_pending_byte_is_dead (state : gc9a01_state_t) (value : Z)
    (args : list Z) (len : Z) :
  value ≠ LOW →
  pending_data_valid (gc9a01_pin_change state (cs_pin state) value) = false ∧
  stale_byte_dead (gc9a01_pin_change state (cs_pin state) value) ∧
  stale_byte_dead (process_command state GC9A01_SWRESET args len) ∧
  pending_data_valid (process_command state GC9A01_SWRESET args len)
  = pending_data_valid state ∧
  stale_byte_dead (gc9a01_pin_change state (rst_pin state) LOW).
Proof.
  intros Hhigh.
  destruct (pin_change_cs_high state value Hhigh) as [Hv Hr].
  split; [done|].
  split; [by apply ram_write_off_stale_byte_dead|].
  split; [by apply ram_write_off_stale_byte_dead|].
  split; [done|].
  apply ram_write_off_stale_byte_dead.
  by destruct (pin_change_reset state) as (state' & -> & _).
Qed.

Lemma stale_pending_byte_is_dead_witness :
  let state := run power_on half_sample_then_command in
  HIGH ≠ LOW ∧
  pending_data_valid (gc9a01_pin_change state (cs_pin state) HIGH) = false.
Proof.
  intros state.
  assert (H : HIGH ≠ LOW) by by_evaluation.
  exact (conj H (proj1 (stale_pending_byte_is_dead state HIGH [] 0 H))).
Defined.

(** ** The command being assembled *)

Lemma set_assembly_same state :
  set_assembly (current_command state) (expected_args state) (received_args state)
               (command_args state) state = state.
Proof. by destruct state. Qed.

Lemma set_assembly_twice c e r a c' e' r' a' state :
  set_assembly c e r a (set_assembly c' e' r' a' state) = set_assembly c e r a state.
Proof. by destruct state. Qed.

Lemma process_command_set_assembly c e r a state command args len :
  process_command (set_assembly c e r a state) command args len
  = set_assembly c e r a (process_command state command args len).
Proof.
  destruct state. unfold process_command, reset_display.
  repeat case_decide; reflexivity.
Qed.

Lemma process_pixel_set_assembly c e r a state pixel_val :
  process_pixel (set_assembly c e r a state) pixel_val
  = set_assembly c e r a (process_pixel state pixel_val).
Proof.
  assert (Hw : pixel_write (set_assembly c e r a state) pixel_val
               = pixel_write state pixel_val) by (by destruct state).
  unfold process_pixel. rewrite Hw.
  destruct (pixel_write state pixel_val) as [[offset color]|]; [|done].
  unfold advance_cursor. read_fields.
  destruct (col_end state <? u16 (current_col state + 1)); read_fields;
    [|by destruct state].
  destruct (row_end state <? u16 (current_row state + 1)); by destruct state.
Qed.

Lemma process_command_assembly_fields state command args len :
  is_receiving_command (process_command state command args len)
  = is_receiving_command state ∧
  current_command (process_command state command args len) = current_command state ∧
  expected_args (process_command state command args len) = expected_args state ∧
  received_args (process_command state command args len) = received_args state ∧
  command_args (process_command state command args len) = command_args state.
Proof.
  destruct state. unfold process_command, reset_display.
  repeat case_decide; done.
Qed.

Lemma process_pixel_assembly_fields state pixel_val :
  is_receiving_command (process_pixel state pixel_val) = is_receiving_command state ∧
  current_command (process_pixel state pixel_val) = current_command state ∧
  expected_args (process_pixel state pixel_val) = expected_args state ∧
  received_args (process_pixel state pixel_val) = received_args state ∧
  command_args (process_pixel state pixel_val) = command_args state.
Proof.
  unfold process_pixel.
  destruct (pixel_write state pixel_val) as [[offset color]|]; [|done].
  unfold advance_cursor. read_fields.
  destruct (col_end state <? u16 (current_col state + 1)); read_fields; [|done].
  by destruct (row_end state <? u16 (current_row state + 1)).
Qed.

(** [process_command] reads its arguments only for a four-argument
    command, and then the first four. *)
Lemma process_command_args state command args1 args2 len :
  (len = 4 → ∀ i : nat, (i < 4)%nat → arg args1 i = arg args2 i) →
  process_command state command args1 len = process_command state command args2 len.
Proof.
  intros Hargs. unfold process_command.
  repeat case_decide; try reflexivity;
    match goal with
    | Hlen : len = 4 |- _ =>
        by rewrite !(Hargs Hlen 0%nat), !(Hargs Hlen 1%nat),
                   !(Hargs Hlen 2%nat), !(Hargs Hlen 3%nat) by lia
    end.
Qed.

Lemma arg_insert_agree (a1 a2 : list Z) (n i : nat) (b : Z) :
  length a1 = length a2 →
  (i ≠ n → arg a1 i = arg a2 i) →
  arg (<[n := b]> a1) i = arg (<[n := b]> a2) i.
Proof.
  intros Hlen Hne. unfold arg. rewrite !nth_lookup.
  destruct (decide (i = n)) as [->|Hin].
  - destruct (decide (n < length a1)%nat).
    + rewrite !list_lookup_insert_eq by lia. done.
    + rewrite !list_insert_ge by lia.
      rewrite !lookup_ge_None_2 by lia. done.
  - rewrite !list_lookup_insert_ne by done.
    specialize (Hne Hin). unfold arg in Hne. by rewrite !nth_lookup in Hne.
Qed.

Lemma assembly_equiv_refl state :
  (is_receiving_command state = true → 0 ≤ received_args state) →
  assembly_equiv state state.
Proof.
  intros Hr. split; [|split; [done|]].
  - eexists _, _, _, _. symmetry. apply set_assembly_same.
  - intros Hrc. repeat split; try done. by apply Hr.
Qed.

Lemma assembly_equiv_fields s1 s2 :
  assembly_equiv s1 s2 →
  mode s2 = mode s1 ∧ is_receiving_command s2 = is_receiving_command s1 ∧
  ram_write s2 = ram_write s1 ∧ pending_data s2 = pending_data s1 ∧
  pending_data_valid s2 = pending_data_valid s1 ∧
  cs_pin s2 = cs_pin s1 ∧ dc_pin s2 = dc_pin s1 ∧ rst_pin s2 = rst_pin s1.
Proof. intros [(c & e & r & a & ->) _]. by destruct s1. Qed.

Lemma assembly_equiv_process_command s1 s2 command args len :
  assembly_equiv s1 s2 →
  assembly_equiv (process_command s1 command args len)
                 (process_command s2 command args len).
Proof.
  intros [(c & e & r & a & ->) HH].
  rewrite process_command_set_assembly.
  split; [by eexists _, _, _, _|].
  destruct (process_command_assembly_fields s1 command args len)
    as (Hf1 & Hf2 & Hf3 & Hf4 & Hf5).
  read_fields. rewrite Hf1, Hf2, Hf3, Hf4, Hf5. exact HH.
Qed.

Lemma assembly_equiv_process_pixel s1 s2 pixel_val :
  assembly_equiv s1 s2 →
  assembly_equiv (process_pixel s1 pixel_val) (process_pixel s2 pixel_val).
Proof.
  intros [(c & e & r & a & ->) HH].
  rewrite process_pixel_set_assembly.
  split; [by eexists _, _, _, _|].
  destruct (process_pixel_assembly_fields s1 pixel_val)
    as (Hf1 & Hf2 & Hf3 & Hf4 & Hf5).
  read_fields. rewrite Hf1, Hf2, Hf3, Hf4, Hf5. exact HH.
Qed.

(** An assignment to a field outside the assembly keeps the relation. *)
Ltac assembly_equiv_setter :=
  intros [(c & e & r & a & ->) HH]; split;
  [ exists c, e, r, a;
    match goal with |- context [set_assembly _ _ _ _ ?s] => by destruct s end
  | read_fields; first [exact HH | split; [apply HH|done]] ].

Lemma assembly_equiv_set_pending_data x s1 s2 :
  assembly_equiv s1 s2 →
  assembly_equiv (set_pending_data x s1) (set_pending_data x s2).
Proof. assembly_equiv_setter. Qed.

Lemma assembly_equiv_set_pending_data_valid x s1 s2 :
  assembly_equiv s1 s2 →
  assembly_equiv (set_pending_data_valid x s1) (set_pending_data_valid x s2).
Proof. assembly_equiv_setter. Qed.

Lemma assembly_equiv_set_ram_write x s1 s2 :
  assembly_equiv s1 s2 →
  assembly_equiv (set_ram_write x s1) (set_ram_write x s2).
Proof. assembly_equiv_setter. Qed.

Lemma assembly_equiv_set_mode x s1 s2 :
  assembly_equiv s1 s2 → assembly_equiv (set_mode x s1) (set_mode x s2).
Proof. assembly_equiv_setter. Qed.

Lemma assembly_equiv_stop_receiving s1 s2 :
  assembly_equiv s1 s2 →
  assembly_equiv (set_is_receiving_command false s1)
                 (set_is_receiving_command false s2).
Proof. assembly_equiv_setter. Qed.


Lemma assembly_equiv_spi_byte s1 s2 b :
  assembly_equiv s1 s2 → assembly_equiv (spi_byte s1 b) (spi_byte s2 b).
Proof.
  intros Heq.
  destruct (assembly_equiv_fields _ _ Heq) as (Hm & Hrc & Hrw & Hpd & Hpv & _).
  unfold spi_byte. rewrite Hm, Hrc, Hrw, Hpd, Hpv.
  destruct (mode s1).
  - destruct (is_receiving_command s1) eqn:Hrecv; cbn [negb].
    + (* one more argument of the command being received *)
      destruct Heq as [(c & e & r & a & ->) [Hlen H]].
      destruct (H Hrecv) as (Hc & He & Hr & Hr0 & Hargs). read_fields.
      subst c e r.
      set (n := Z.to_nat (received_args s1)).
      set (r' := u8 (received_args s1 + 1)).
      assert (Hr' : 0 ≤ r' ≤ received_args s1 + 1).
      { unfold r', u8.
        pose proof (Z.mod_pos_bound (received_args s1 + 1) (2 ^ 8)).
        pose proof (Z.mod_le (received_args s1 + 1) (2 ^ 8)). lia. }
      assert (Hagree : ∀ i : nat, Z.of_nat i < r' →
                arg (<[n := b]> a) i = arg (<[n := b]> (command_args s1)) i).
      { intros i Hi. apply arg_insert_agree; [done|].
        intros Hne. apply Hargs. unfold n in Hne. lia. }
      assert (E1 : set_received_args r'
                     (set_command_args (<[n := b]> (command_args s1)) s1)
                   = set_assembly (current_command s1) (expected_args s1) r'
                       (<[n := b]> (command_args s1)) s1) by (by destruct s1).
      assert (E2 : set_received_args r'
                     (set_command_args (<[n := b]> a)
                        (set_assembly (current_command s1) (expected_args s1)
                           (received_args s1) a s1))
                   = set_assembly (current_command s1) (expected_args s1) r'
                       (<[n := b]> a) s1) by (by destruct s1).
      rewrite E1, E2. clear E1 E2.
      destruct (Z.leb_spec (expected_args s1) r') as [Hfull|Hmore].
      * rewrite !process_command_set_assembly.
        rewrite (process_command_args s1 _ (<[n := b]> a)
                   (<[n := b]> (command_args s1))).
        2: { intros H4 i Hi. apply Hagree. lia. }
        split; [|split].
        -- exists (current_command s1), (expected_args s1), r', (<[n := b]> a).
           by destruct (process_command s1 _ _ _).
        -- read_fields. by rewrite !length_insert.
        -- read_fields. done.
      * split; [|split].
        -- exists (current_command s1), (expected_args s1), r', (<[n := b]> a).
           by destruct s1.
        -- read_fields. by rewrite !length_insert.
        -- read_fields. intros _. repeat split; try done; lia.
    + (* an opcode *)
      destruct Heq as [(c & e & r & a & ->) [Hlen _]]. read_fields.
      set (eb := get_expected_arg_count b).
      assert (E1 : set_expected_args eb (set_received_args 0
                     (set_is_receiving_command true (set_current_command b s1)))
                   = set_assembly b eb 0 (command_args s1)
                       (set_is_receiving_command true s1)) by (by destruct s1).
      assert (E2 : set_expected_args eb (set_received_args 0
                     (set_is_receiving_command true
                        (set_current_command b (set_assembly c e r a s1))))
                   = set_assembly b eb 0 a (set_is_receiving_command true s1))
        by (by destruct s1).
      rewrite E1, E2. clear E1 E2.
      case_decide.
      * rewrite !process_command_set_assembly.
        split; [|split].
        -- exists b, eb, 0, a. by destruct (process_command _ _ _ _).
        -- read_fields. done.
        -- read_fields. done.
      * split; [|split].
        -- exists b, eb, 0, a. by destruct s1.
        -- read_fields. done.
        -- read_fields. intros _. repeat split; try done. intros i Hi. lia.
  - destruct (ram_write s1); [|done].
    destruct (pending_data_valid s1).
    + by apply assembly_equiv_process_pixel, assembly_equiv_set_pending_data_valid.
    + by apply assembly_equiv_set_pending_data_valid, assembly_equiv_set_pending_data.
Qed.

Lemma assembly_equiv_pin_change s1 s2 pin value :
  assembly_equiv s1 s2 →
  assembly_equiv (gc9a01_pin_change s1 pin value) (gc9a01_pin_change s2 pin value).
Proof.
  intros Heq. unfold gc9a01_pin_change. cbn zeta.
  assert (Hcs : assembly_equiv (pin_change_cs s1 pin value) (pin_change_cs s2 pin value)).
  { destruct (assembly_equiv_fields _ _ Heq) as (_ & _ & _ & _ & _ & Hp & _).
    unfold pin_change_cs. rewrite Hp. repeat case_decide; [| |done].
    - by apply assembly_equiv_set_pending_data_valid, assembly_equiv_stop_receiving.
    - by apply assembly_equiv_set_pending_data_valid, assembly_equiv_stop_receiving,
        assembly_equiv_set_ram_write. }
  revert Hcs.
  generalize (pin_change_cs s1 pin value), (pin_change_cs s2 pin value).
  clear s1 s2 Heq. intros s1 s2 Heq.
  assert (Hdc : assembly_equiv (pin_change_dc s1 pin value) (pin_change_dc s2 pin value)).
  { destruct (assembly_equiv_fields _ _ Heq) as (_ & _ & _ & _ & _ & _ & Hp & _).
    unfold pin_change_dc. rewrite Hp. repeat case_decide; [| |done];
      by apply assembly_equiv_set_mode. }
  revert Hdc.
  generalize (pin_change_dc s1 pin value), (pin_change_dc s2 pin value).
  clear s1 s2 Heq. intros s1 s2 Heq.
  destruct (assembly_equiv_fields _ _ Heq) as (_ & _ & _ & _ & _ & _ & _ & Hp).
  unfold pin_change_rst. rewrite Hp. case_decide; [|done].
  by apply (assembly_equiv_process_command _ _ GC9A01_SWRESET [] 0).
Qed.

Lemma assembly_equiv_step s1 s2 ev :
  assembly_equiv s1 s2 → assembly_equiv (step s1 ev) (step s2 ev).
Proof.
  intros Heq. destruct ev as [buffer|pin value]; cbn [step].
  - rewrite !gc9a01_spi_done_fold. revert s1 s2 Heq.
    induction buffer as [|b buffer IH]; intros s1 s2 Heq; [done|].
    cbn [fold_left]. by apply IH, assembly_equiv_spi_byte.
  - by apply assembly_equiv_pin_change.
Qed.

Lemma assembly_equiv_run evs : ∀ s1 s2,
  assembly_equiv s1 s2 → assembly_equiv (run s1 evs) (run s2 evs).
Proof.
  induction evs as [|ev evs IH]; intros s1 s2 Heq; [done|].
  cbn [run fold_left]. by apply IH, assembly_equiv_step.
Qed.

(** While no command is being received, the assembly fields can hold
    anything. *)
Lemma idle_assembly_equiv state c e r a :
  is_receiving_command state = false →
  length a = length (command_args state) →
  assembly_equiv state (set_assembly c e r a state).
Proof.
  intros Hidle Hlen. split; [by exists c, e, r, a|].
  split; [done|]. congruence.
Qed.

Lemma known_opcode_cases b :
  known_opcode b ↔
  b = GC9A01_SWRESET ∨ b = GC9A01_SLPOUT ∨ b = GC9A01_DISPON ∨
  b = GC9A01_DISPOFF ∨ b = GC9A01_CASET ∨ b = GC9A01_RASET ∨
  b = GC9A01_RAMWR ∨ b = GC9A01_MADCTL ∨ b = GC9A01_COLMOD ∨
  b = GC9A01_INVOFF ∨ b = GC9A01_INVON.
Proof. unfold known_opcode. rewrite !elem_of_cons, elem_of_nil. tauto. Qed.

Lemma get_expected_arg_count_unknown b :
  ¬ known_opcode b → get_expected_arg_count b = 0.
Proof.
  rewrite known_opcode_cases. unfold get_expected_arg_count. intros Hb.
  repeat case_decide; try done; tauto.
Qed.

Lemma process_command_unknown state b args len :
  ¬ known_opcode b → process_command state b args len = state.
Proof.
  rewrite known_opcode_cases. unfold process_command. intros Hb.
  repeat case_decide; try done; tauto.
Qed.

(** Claim C9.  An opcode outside the command table is a zero-argument
    command; applying it changes no field and no pixel; the parser is idle
    afterwards; and every later event has the effect it would have had
    without the unknown opcode.  (The parser's record of the last opcode
    and of its two counters is overwritten by the byte; those fields are
    read only while a command is being received.) *)
Theorem unknown_opcode_is_noop (state : gc9a01_state_t) (b : Z)
    (args : list Z) (len : Z) (evs : list event) :
  ¬ known_opcode b →
  mode state = GC9A01_MODE_COMMAND →
  is_receiving_command state = false →
  get_expected_arg_count b = 0 ∧
  process_command state b args len = state ∧
  gc9a01_spi_done state [b] = set_assembly b 0 0 (command_args state) state ∧
  is_receiving_command (gc9a01_spi_done state [b]) = false ∧
  assembly_equiv (run state evs) (run (gc9a01_spi_done state [b]) evs).
Proof.
  intros Hb Hm Hidle.
  pose proof (get_expected_arg_count_unknown b Hb) as Hcount.
  assert (Hdone : gc9a01_spi_done state [b]
                  = set_assembly b 0 0 (command_args state) state).
  { cbn [gc9a01_spi_done fold_left]. unfold spi_byte.
    rewrite Hm, Hidle. cbn [negb]. read_fields. rewrite Hcount.
    rewrite decide_True by done.
    rewrite process_command_unknown by done.
    destruct state. cbn in Hidle. by subst. }
  split; [done|]. split; [by apply process_command_unknown|].
  split; [done|]. rewrite Hdone. split; [by destruct state|].
  by apply assembly_equiv_run, idle_assembly_equiv.
Qed.

Lemma select_line_pulse_clears state :
  cs_pin state ≠ dc_pin state → cs_pin state ≠ rst_pin state →
  run state (select_line_pulse state)
  = set_pending_data_valid false
      (set_is_receiving_command false (set_ram_write false state)).
Proof.
  intros Hdc Hrst.
  assert (Hpin : ∀ st v,
            cs_pin st ≠ dc_pin st → cs_pin st ≠ rst_pin st →
            gc9a01_pin_change st (cs_pin st) v = pin_change_cs st (cs_pin st) v).
  { intros st v H1 H2. unfold gc9a01_pin_change. cbn zeta.
    destruct (pin_change_cs_pins st (cs_pin st) v) as (_ & Hd & Hr & _).
    unfold pin_change_dc. rewrite Hd, decide_False by done.
    unfold pin_change_rst. rewrite Hr, decide_False; [done|]. by intros [? _]. }
  unfold select_line_pulse. cbn [run fold_left step].
  rewrite Hpin by done.
  assert (Hhigh : pin_change_cs state (cs_pin state) HIGH
                  = set_pending_data_valid false
                      (set_is_receiving_command false (set_ram_write false state))).
  { unfold pin_change_cs. by rewrite decide_True, decide_False. }
  rewrite Hhigh.
  set (state1 := set_pending_data_valid false _).
  change (cs_pin state) with (cs_pin state1).
  rewrite Hpin by done.
  unfold pin_change_cs. rewrite decide_True, decide_True by done.
  subst state1. by destruct state.
Qed.

Lemma process_command_set_is_receiving_command x state command args len :
  process_command (set_is_receiving_command x state) command args len
  = set_is_receiving_command x (process_command state command args len).
Proof.
  destruct state. unfold process_command, reset_display.
  repeat case_decide; reflexivity.
Qed.

(** An opcode without arguments, received while the parser is idle in
    command mode, is applied at once. *)
Lemma spi_done_zero_arg_command state b :
  mode state = GC9A01_MODE_COMMAND →
  is_receiving_command state = false →
  get_expected_arg_count b = 0 →
  gc9a01_spi_done state [b]
  = set_assembly b 0 0 (command_args state) (process_command state b [] 0).
Proof.
  intros Hm Hidle Hcount.
  cbn [gc9a01_spi_done fold_left]. unfold spi_byte.
  rewrite Hm, Hidle. cbn [negb]. read_fields. rewrite Hcount.
  rewrite decide_True by done.
  assert (E : set_expected_args 0 (set_received_args 0
                (set_is_receiving_command true (set_current_command b state)))
              = set_assembly b 0 0 (command_args state)
                  (set_is_receiving_command true state)) by (by destruct state).
  rewrite E, process_command_set_assembly,
    process_command_set_is_receiving_command.
  destruct (process_command_assembly_fields state b [] 0) as (Hrc & _).
  rewrite Hidle in Hrc. revert Hrc.
  generalize (process_command state b [] 0). intros P HP.
  destruct P. cbn in HP. by subst.
Qed.

(** With distinct pin handles only the select-line block runs for the
    select pin. *)
Lemma pin_change_on_cs state value :
  cs_pin state ≠ dc_pin state → cs_pin state ≠ rst_pin state →
  gc9a01_pin_change state (cs_pin state) value
  = pin_change_cs state (cs_pin state) value.
Proof.
  intros H1 H2. unfold gc9a01_pin_change. cbn zeta.
  destruct (pin_change_cs_pins state (cs_pin state) value) as (_ & Hd & Hr & _).
  unfold pin_change_dc. rewrite Hd, decide_False by done.
  unfold pin_change_rst. rewrite Hr, decide_False; [done|]. by intros [? _].
Qed.

(** Likewise only the mode-line block runs for the mode pin. *)
Lemma pin_change_on_dc state value :
  cs_pin state ≠ dc_pin state → dc_pin state ≠ rst_pin state →
  gc9a01_pin_change state (dc_pin state) value
  = set_mode (if decide (value = LOW) then GC9A01_MODE_COMMAND
              else GC9A01_MODE_DATA) state.
Proof.
  intros H1 H2.
  unfold gc9a01_pin_change, pin_change_cs, pin_change_dc, pin_change_rst.
  destruct (decide (dc_pin state = cs_pin state)) as [|_]; [done|].
  lazy zeta.
  destruct (decide (dc_pin state = dc_pin state)) as [_|]; [|done].
  destruct (decide (value = LOW)); cbn [rst_pin set_mode];
    (destruct (decide (dc_pin state = rst_pin state ∧ _)) as [[? _]|_]; done).
Qed.

(** In data mode, outside a memory write, a delivery changes nothing. *)
Lemma spi_done_data_ignored state buffer :
  mode state = GC9A01_MODE_DATA → ram_write state = false →
  gc9a01_spi_done state buffer = state.
Proof.
  intros Hm Hr. rewrite gc9a01_spi_done_fold.
  induction buffer as [|b buffer IH]; [done|].
  cbn [fold_left]. unfold spi_byte at 2. by rewrite Hm, Hr.
Qed.

(** Claim C10.  For every state, in particular one holding a
    four-argument command with only some of its arguments, in either mode:
    deactivating the select line clears [ram_write], [is_receiving_command]
    and [pending_data_valid] and nothing else; reactivating it clears
    [is_receiving_command] and [pending_data_valid] and nothing else, so
    the address window, the cursor and the surface are kept.  After the
    two edges the opcode and the arguments of the abandoned command have
    no effect on any later event: it is never applied.  A zero-argument
    opcode delivered next is, in command mode (at once, or after the mode
    line is lowered), the one command applied; in data mode the byte is
    ignored. *)
Theorem select_line_abandons_command (state : gc9a01_state_t) (value b : Z)
    (c e r : Z) (a : list Z) (evs : list event) :
  cs_pin state ≠ dc_pin state → cs_pin state ≠ rst_pin state →
  dc_pin state ≠ rst_pin state →
  value ≠ LOW →
  get_expected_arg_count b = 0 →
  length a = length (command_args state) →
  let off := gc9a01_pin_change state (cs_pin state) value in
  let state' := gc9a01_pin_change off (cs_pin state) LOW in
  let ready := gc9a01_pin_change state' (dc_pin state) LOW in
  off = set_pending_data_valid false
          (set_is_receiving_command false (set_ram_write false state)) ∧
  gc9a01_pin_change state (cs_pin state) LOW
  = set_pending_data_valid false (set_is_receiving_command false state) ∧
  state' = set_pending_data_valid false
             (set_is_receiving_command false (set_ram_write false state)) ∧
  (ram_write state' = false ∧ is_receiving_command state' = false ∧
   pending_data_valid state' = false) ∧
  (col_start state' = col_start state ∧ col_end state' = col_end state ∧
   row_start state' = row_start state ∧ row_end state' = row_end state ∧
   current_col state' = current_col state ∧ current_row state' = current_row state ∧
   framebuffer state' = framebuffer state ∧ mode state' = mode state) ∧
  (mode state = GC9A01_MODE_DATA → gc9a01_spi_done state' [b] = state') ∧
  (mode state = GC9A01_MODE_COMMAND →
   gc9a01_spi_done state' [b]
   = set_assembly b 0 0 (command_args state') (process_command state' b [] 0)) ∧
  ready = set_mode GC9A01_MODE_COMMAND state' ∧
  gc9a01_spi_done ready [b]
  = set_assembly b 0 0 (command_args ready) (process_command ready b [] 0) ∧
  is_receiving_command (gc9a01_spi_done ready [b]) = false ∧
  assembly_equiv (run state' evs) (run (set_assembly c e r a state') evs).
Proof.
  intros Hcd Hcr Hdr Hhigh Hcount Hlen off state' ready.
  assert (Hoff : off = set_pending_data_valid false
                   (set_is_receiving_command false (set_ram_write false state))).
  { unfold off. rewrite pin_change_on_cs by done.
    unfold pin_change_cs. by rewrite decide_True, decide_False. }
  assert (Hlow : ∀ st, cs_pin st ≠ dc_pin st → cs_pin st ≠ rst_pin st →
            gc9a01_pin_change st (cs_pin st) LOW
            = set_pending_data_valid false (set_is_receiving_command false st)).
  { intros st H1 H2. rewrite pin_change_on_cs by done.
    unfold pin_change_cs. by rewrite decide_True, decide_True. }
  assert (Hst : state' = set_pending_data_valid false
                  (set_is_receiving_command false (set_ram_write false state))).
  { unfold state'. rewrite Hoff.
    set (st := set_pending_data_valid false _).
    change (cs_pin state) with (cs_pin st).
    rewrite Hlow by done. subst st. by destruct state. }
  assert (Hidle : is_receiving_command state' = false) by (by rewrite Hst).
  assert (Hram : ram_write state' = false) by (by rewrite Hst).
  assert (Hmode : mode state' = mode state) by (by rewrite Hst).
  assert (Hargs : command_args state' = command_args state) by (by rewrite Hst).
  assert (Hready : ready = set_mode GC9A01_MODE_COMMAND state').
  { unfold ready.
    assert (Hpins : dc_pin state' = dc_pin state ∧ cs_pin state' = cs_pin state ∧
                    rst_pin state' = rst_pin state) by (by rewrite Hst).
    destruct Hpins as (Hp1 & Hp2 & Hp3). rewrite <- Hp1.
    rewrite pin_change_on_dc by congruence. by rewrite decide_True. }
  split; [done|]. split; [by apply Hlow|]. split; [done|].
  split; [by rewrite Hst|]. split; [by rewrite Hst|].
  split; [intros Hm; apply spi_done_data_ignored; congruence|].
  split; [intros Hm; apply spi_done_zero_arg_command; congruence|].
  split; [done|].
  assert (Hdone : gc9a01_spi_done ready [b]
            = set_assembly b 0 0 (command_args ready) (process_command ready b [] 0)).
  { apply spi_done_zero_arg_command; [by rewrite Hready| |done].
    by rewrite Hready. }
  split; [done|]. split.
  - rewrite Hdone. read_fields.
    destruct (process_command_assembly_fields ready b [] 0) as (-> & _).
    by rewrite Hready.
  - apply assembly_equiv_run, idle_assembly_equiv; [done|]. by rewrite Hargs.
Qed.

Lemma unknown_opcode_is_noop_witness :
  (¬ known_opcode 0x99 ∧ mode power_on = GC9A01_MODE_COMMAND ∧
   is_receiving_command power_on = false) ∧
  get_expected_arg_count 0x99 = 0 ∧
  process_command power_on 0x99 [] 0 = power_on.
Proof.
  assert (H1 : ¬ known_opcode 0x99).
  { rewrite known_opcode_cases.
    unfold GC9A01_SWRESET, GC9A01_SLPOUT, GC9A01_DISPON, GC9A01_DISPOFF,
      GC9A01_CASET, GC9A01_RASET, GC9A01_RAMWR, GC9A01_MADCTL, GC9A01_COLMOD,
      GC9A01_INVOFF, GC9A01_INVON. lia. }
  assert (H2 : mode power_on = GC9A01_MODE_COMMAND) by reflexivity.
  assert (H3 : is_receiving_command power_on = false) by reflexivity.
  pose proof (unknown_opcode_is_noop power_on 0x99 [] 0 [] H1 H2 H3) as H.
  destruct H as (Hcount & Hnoop & _).
  exact (conj (conj H1 (conj H2 H3)) (conj Hcount Hnoop)).
Defined.

Lemma select_line_abandons_command_witness :
  let state := run power_on partial_caset_in_data_mode in
  (cs_pin state ≠ dc_pin state ∧ cs_pin state ≠ rst_pin state ∧
   dc_pin state ≠ rst_pin state ∧ HIGH ≠ LOW ∧
   get_expected_arg_count GC9A01_INVON = 0) ∧
  (mode state = GC9A01_MODE_DATA ∧ is_receiving_command state = true ∧
   expected_args state = 4 ∧ received_args state = 2) ∧
  is_receiving_command
    (gc9a01_pin_change (gc9a01_pin_change state (cs_pin state) HIGH)
       (cs_pin state) LOW) = false.
Proof.
  intros state.
  assert (H1 : cs_pin state ≠ dc_pin state) by by_evaluation.
  assert (H2 : cs_pin state ≠ rst_pin state) by by_evaluation.
  assert (H3 : dc_pin state ≠ rst_pin state) by by_evaluation.
  assert (H4 : HIGH ≠ LOW) by by_evaluation.
  assert (H5 : get_expected_arg_count GC9A01_INVON = 0) by reflexivity.
  assert (H6 : length (command_args state) = length (command_args state))
    by exact eq_refl.
  assert (H7 : mode state = GC9A01_MODE_DATA ∧ is_receiving_command state = true ∧
               expected_args state = 4 ∧ received_args state = 2)
    by by_evaluation.
  pose proof (select_line_abandons_command state HIGH GC9A01_INVON 0 0 0
                (command_args state) [] H1 H2 H3 H4 H5 H6) as H.
  lazy zeta in H.
  destruct H as (_ & _ & _ & (_ & Hidle & _) & _).
  exact (conj (conj H1 (conj H2 (conj H3 (conj H4 H5)))) (conj H7 Hidle)).
Defined.

(** ** Reachable states *)

Lemma u16_range z : is_u16 (u16 z).
Proof. unfold is_u16, u16. apply Z.mod_pos_bound. lia. Qed.

(** Closes one conjunct of [state_invariant]. *)
Ltac invariant_goal :=
  first [ done | apply u16_range | unfold is_u16 in *; intuition lia ].

Lemma state_invariant_process_command state command args len :
  state_invariant state → state_invariant (process_command state command args len).
Proof.
  unfold state_invariant. destruct state. unfold process_command, reset_display.
  unfold_state. intros (Hw & Hh & H1 & H2 & H3 & H4 & H5 & H6 & H7 & H8).
  repeat case_decide; unfold_state;
    repeat split; invariant_goal.
Qed.

Lemma state_invariant_process_pixel state pixel_val :
  state_invariant state → state_invariant (process_pixel state pixel_val).
Proof.
  intros Hinv. unfold process_pixel.
  destruct (pixel_write state pixel_val) as [[offset color]|]; [|done].
  unfold advance_cursor. read_fields.
  destruct Hinv as (Hw & Hh & H1 & H2 & H3 & H4 & H5 & H6 & H7 & H8).
  destruct (col_end state <? u16 (current_col state + 1)); read_fields.
  - destruct (row_end state <? u16 (current_row state + 1));
      unfold state_invariant; read_fields;
      repeat split; invariant_goal.
  - unfold state_invariant; read_fields;
      repeat split; invariant_goal.
Qed.

Lemma get_expected_arg_count_values b :
  get_expected_arg_count b = 0 ∨ get_expected_arg_count b = 1 ∨
  get_expected_arg_count b = 4.
Proof. unfold get_expected_arg_count. repeat case_decide; auto. Qed.

Lemma state_invariant_spi_byte state b :
  state_invariant state → state_invariant (spi_byte state b).
Proof.
  intros Hinv. unfold spi_byte.
  destruct (mode state).
  - destruct (is_receiving_command state) eqn:Hrecv; cbn [negb].
    + read_fields.
      destruct Hinv as (Hw & Hh & H1 & H2 & H3 & H4 & H5 & H6 & H7 & H8).
      destruct (H8 Hrecv) as [Hr He].
      assert (Hr' : u8 (received_args state + 1) = received_args state + 1).
      { unfold u8. apply Z.mod_small. lia. }
      rewrite Hr'.
      assert (Hst : state_invariant
                (set_received_args (received_args state + 1)
                   (set_command_args
                      (<[Z.to_nat (received_args state) := b]> (command_args state))
                      state)) ∨
              expected_args state ≤ received_args state + 1).
      { destruct (Z.le_gt_cases (expected_args state) (received_args state + 1));
          [by right|left].
        unfold state_invariant. read_fields. rewrite length_insert.
        repeat split; first [invariant_goal | lia]. }
      destruct (Z.leb_spec (expected_args state) (received_args state + 1)).
      * assert (Hbase : state_invariant
                  (set_is_receiving_command false
                     (set_received_args (received_args state + 1)
                        (set_command_args
                           (<[Z.to_nat (received_args state) := b]>
                              (command_args state)) state)))).
        { unfold state_invariant. read_fields. rewrite length_insert.
          repeat split; invariant_goal. }
        rewrite <- process_command_set_is_receiving_command.
        by apply state_invariant_process_command.
      * destruct Hst; [done|lia].
    + read_fields.
      destruct Hinv as (Hw & Hh & H1 & H2 & H3 & H4 & H5 & H6 & H7 & H8).
      case_decide.
      * rewrite <- process_command_set_is_receiving_command.
        apply state_invariant_process_command.
        unfold state_invariant. read_fields. repeat split; invariant_goal.
      * unfold state_invariant. read_fields.
        destruct (get_expected_arg_count_values b) as [?|[?|?]];
          repeat split; first [invariant_goal | lia].
  - destruct (ram_write state); [|done].
    destruct (pending_data_valid state).
    + apply state_invariant_process_pixel.
      unfold state_invariant in *. read_fields. exact Hinv.
    + unfold state_invariant in *. read_fields. exact Hinv.
Qed.

Lemma state_invariant_pin_change state pin value :
  state_invariant state → state_invariant (gc9a01_pin_change state pin value).
Proof.
  intros Hinv. unfold gc9a01_pin_change. cbn zeta.
  assert (Hcs : state_invariant (pin_change_cs state pin value)).
  { unfold pin_change_cs. repeat case_decide; [| |done];
      unfold state_invariant in *; read_fields;
      destruct Hinv as (Hw & Hh & H1 & H2 & H3 & H4 & H5 & H6 & H7 & H8);
      repeat split; invariant_goal. }
  revert Hcs. generalize (pin_change_cs state pin value). clear state Hinv.
  intros state Hinv.
  assert (Hdc : state_invariant (pin_change_dc state pin value)).
  { unfold pin_change_dc. repeat case_decide; [| |done];
      unfold state_invariant in *; read_fields; exact Hinv. }
  revert Hdc. generalize (pin_change_dc state pin value). clear state Hinv.
  intros state Hinv.
  unfold pin_change_rst. case_decide; [|done].
  by apply (state_invariant_process_command _ GC9A01_SWRESET [] 0).
Qed.

Lemma state_invariant_chip_init cs dc rst : state_invariant (chip_init cs dc rst).
Proof.
  unfold state_invariant, chip_init, is_u16. read_fields.
  repeat split; done.
Qed.

(** Every state reached from [chip_init] satisfies the invariant.  In
    particular the write [command_args[received_args++]] stays inside the
    sixteen-cell array, and the hypotheses of the theorems on the pixel
    pipeline hold of the states the chip is really in. *)
Theorem reachable_state_invariant cs dc rst (evs : list event) :
  state_invariant (run (chip_init cs dc rst) evs).
Proof.
  generalize (state_invariant_chip_init cs dc rst).
  generalize (chip_init cs dc rst). induction evs as [|ev evs IH]; intros state Hinv.
  - done.
  - cbn [run fold_left]. apply IH. destruct ev as [buffer|pin value]; cbn [step].
    + rewrite gc9a01_spi_done_fold. revert state Hinv.
      induction buffer as [|b buffer IHb]; intros state Hinv; [done|].
      cbn [fold_left]. by apply IHb, state_invariant_spi_byte.
    + by apply state_invariant_pin_change.
Qed.

(** Far off the surface the squares of the circle test no longer fit
    [int]: 65415² is taken modulo 2³² and the test comes out false. *)
Remark circle_test_beyond_int :
  let state := run power_on far_column_window in
  (current_col state, current_row state) = (65535, 120) ∧
  ¬ circle_test_defined state ∧
  outside_circle state = false.
Proof. lazy. repeat split; congruence. Qed.
